(** * PubMed literature server: a shallow embedding of [pubmed_server.py]

    The development follows the layout of the source file: a prelude with the
    Python values and builtins the program relies on, the [xml.etree]
    queries it issues, the transport with its retry loop, the search and
    fetch helpers, the article parser, the three tool handlers and the
    citation formatter.  The properties are stated and proved after the
    definitions. *)

From Stdlib Require Import ZArith QArith List String Ascii Bool Lia.
From Stdlib Require Import Sorted Permutation DecimalString.
From Equations Require Import Equations.
Import ListNotations.

Set Warnings "-register-all".

Local Open Scope string_scope.
Local Open Scope Z_scope.

(** ** Python prelude *)

Module Py.

(** Exception classes that the program can observe.  [RequestException]
    stands for [requests.RequestException] and every subclass of it other
    than [HTTPError]; [OtherError] is any further subclass of
    [Exception] that a library call may raise. *)
Inductive exn_class :=
| RequestException | HTTPError
| AttributeError | TypeError | ValueError | KeyError | OtherError.

(** An exception object: its class and the text [str(e)] yields. *)
Record exn := Exn { class_of : exn_class; str_of : string }.

(** [isinstance(e, requests.RequestException)] *)
Definition is_request_exception (e : exn) : bool :=
  match class_of e with
  | RequestException | HTTPError => true
  | _ => false
  end.

(** Outcome of an expression that may raise. *)
Inductive result (A : Type) :=
| Ok (a : A)
| Raise (e : exn).
Arguments Ok {A} a.
Arguments Raise {A} e.

Definition rbind {A B} (r : result A) (k : A -> result B) : result B :=
  match r with
  | Ok a => k a
  | Raise e => Raise e
  end.

(** A [dict] with [str] keys: insertion ordered, first binding wins. *)
Definition Dict (V : Type) := list (string * V).

Fixpoint dict_get {V} (d : Dict V) (k : string) : option V :=
  match d with
  | [] => None
  | (k', v) :: d' => if (k' =? k)%string then Some v else dict_get d' k
  end.

(** [d.get(k, default)] *)
Definition get_or {V} (d : Dict V) (k : string) (default : V) : V :=
  match dict_get d k with
  | Some v => v
  | None => default
  end.

(** [d[k] = v]: an existing key keeps its position, a new one goes last. *)
Fixpoint dict_set {V} (d : Dict V) (k : string) (v : V) : Dict V :=
  match d with
  | [] => [(k, v)]
  | (k', v') :: d' =>
      if (k' =? k)%string then (k', v) :: d' else (k', v') :: dict_set d' k v
  end.

Definition keys {V} (d : Dict V) : list string := map fst d.

(** Python values as they come out of [json] and go into the result
    envelopes.  A [float] is represented by the rational it denotes
    (non-finite floats are not represented). *)
Inductive value :=
| VNone
| VBool (b : bool)
| VInt (z : Z)
| VFloat (q : Q)
| VStr (s : string)
| VList (l : list value)
| VDict (d : list (string * value)).

Definition type_name (v : value) : string :=
  match v with
  | VNone => "NoneType"
  | VBool _ => "bool"
  | VInt _ => "int"
  | VFloat _ => "float"
  | VStr _ => "str"
  | VList _ => "list"
  | VDict _ => "dict"
  end.

Definition no_attribute {A} (ty attr : string) : result A :=
  Raise (Exn AttributeError
           ("'" ++ ty ++ "' object has no attribute '" ++ attr ++ "'")).

(** Truth value of an object, as tested by [if x] and [not x]. *)
Definition truthy (v : value) : bool :=
  match v with
  | VNone => false
  | VBool b => b
  | VInt z => negb (z =? 0)
  | VFloat q => negb (Qeq_bool q 0)
  | VStr s => negb (s =? "")%string
  | VList l => match l with [] => false | _ => true end
  | VDict d => match d with [] => false | _ => true end
  end.

Definition str_truthy (s : string) : bool := negb (s =? "")%string.

(** [o.get(key, default)]: only a [dict] has the method. *)
Definition py_get (o : value) (key : string) (default : value) : result value :=
  match o with
  | VDict d => Ok (get_or d key default)
  | _ => no_attribute (type_name o) "get"
  end.

Definition chars (s : string) : list string :=
  map (fun c => String c EmptyString) (list_ascii_of_string s).

(** [len(o)] *)
Definition py_len (o : value) : result nat :=
  match o with
  | VStr s => Ok (String.length s)
  | VList l => Ok (List.length l)
  | VDict d => Ok (List.length d)
  | _ => Raise (Exn TypeError
                  ("object of type '" ++ type_name o ++ "' has no len()"))
  end.

Definition decimal (z : Z) : string := NilZero.string_of_int (Z.to_int z).

Fixpoint join_items (sep : string) (i : nat) (items : list value)
  : result (list string) :=
  match items with
  | [] => Ok []
  | VStr s :: rest => rbind (join_items sep (S i) rest) (fun l => Ok (s :: l))
  | v :: _ =>
      Raise (Exn TypeError
               ("sequence item " ++ decimal (Z.of_nat i)
                ++ ": expected str instance, " ++ type_name v ++ " found"))
  end.

(** [sep.join(o)]: [o] is iterated; every item has to be a [str]. *)
Definition str_join (sep : string) (o : value) : result string :=
  match o with
  | VList l => rbind (join_items sep 0 l) (fun l => Ok (String.concat sep l))
  | VStr s => Ok (String.concat sep (chars s))
  | VDict d => Ok (String.concat sep (map fst d))
  | _ => Raise (Exn TypeError "can only join an iterable")
  end.

(** [o[:n]] *)
Definition slice_to (n : nat) (o : value) : result value :=
  match o with
  | VList l => Ok (VList (firstn n l))
  | VStr s => Ok (VStr (String.substring 0 n s))
  | VDict _ => Raise (Exn TypeError "unhashable type: 'slice'")
  | _ => Raise (Exn TypeError
                  ("'" ++ type_name o ++ "' object is not subscriptable"))
  end.

(** A [str] is held as the bytes of its UTF-8 encoding, while [str.strip()]
    works on characters.  [characters l] cuts the bytes into the encoded
    characters: a byte that is not a continuation byte (10xxxxxx) starts a
    character, and the continuation bytes that follow it belong to it. *)
Definition is_continuation (b : ascii) : bool :=
  let n := nat_of_ascii b in ((128 <=? n) && (n <=? 191))%nat.

Fixpoint characters (l : list ascii) : list (list ascii) :=
  match l with
  | [] => []
  | b :: l' =>
      match characters l' with
      | (c :: following) :: rest =>
          if is_continuation c
          then (b :: c :: following) :: rest
          else [b] :: (c :: following) :: rest
      | rest => [b] :: rest
      end
  end.

(** Characters removed by [str.strip()]: those for which [str.isspace()]
    holds, given by their encoding.  One byte: U+0009 to U+000D, U+001C to
    U+001F and U+0020.  Two bytes: U+0085 (C2 85) and U+00A0 (C2 A0).
    Three bytes: U+1680 (E1 9A 80), U+2000 to U+200A (E2 80 80 to E2 80 8A),
    U+2028, U+2029 and U+202F (E2 80 A8, E2 80 A9, E2 80 AF), U+205F
    (E2 81 9F) and U+3000 (E3 80 80). *)
Definition is_space (c : list ascii) : bool :=
  match map nat_of_ascii c with
  | [n] => ((9 <=? n) && (n <=? 13) || (28 <=? n) && (n <=? 32))%nat
  | [a; n] => ((a =? 194) && ((n =? 133) || (n =? 160)))%nat
  | [a; b; n] =>
      ((a =? 225) && (b =? 154) && (n =? 128)
       || (a =? 226) && (b =? 128)
          && ((128 <=? n) && (n <=? 138)
              || (n =? 168) || (n =? 169) || (n =? 175))
       || (a =? 226) && (b =? 129) && (n =? 159)
       || (a =? 227) && (b =? 128) && (n =? 128))%nat
  | _ => false
  end.

Fixpoint lstrip (l : list (list ascii)) : list (list ascii) :=
  match l with
  | c :: l' => if is_space c then lstrip l' else l
  | [] => []
  end.

(** [s.strip()] *)
Definition strip (s : string) : string :=
  string_of_list_ascii
    (List.concat (rev (lstrip (rev (lstrip
       (characters (list_ascii_of_string s))))))).

End Py.
Export Py.

(** Behaviour of the interpreter that the development leaves open: the
    grammar accepted by [int()] on a [str], the text [str()] gives for a
    container, and [round(x, 2)] on a [float]. *)
Class Interpreter := {
  int_of_str : string -> result Z;
  repr : value -> string;
  round2 : Q -> Q
}.

(** [int(o)] *)
Definition py_int `{Interpreter} (o : value) : result Z :=
  match o with
  | VBool b => Ok (if b then 1 else 0)
  | VInt z => Ok z
  | VFloat q => Ok (Z.quot (Qnum q) (Z.pos (Qden q)))
  | VStr s => int_of_str s
  | _ => Raise (Exn TypeError
                  ("int() argument must be a string, a bytes-like object "
                   ++ "or a real number, not '" ++ type_name o ++ "'"))
  end.

(** [str(o)], as used by an f-string field [{o}]. *)
Definition py_str `{Interpreter} (o : value) : string :=
  match o with
  | VNone => "None"
  | VBool b => if b then "True" else "False"
  | VInt z => decimal z
  | VStr s => s
  | _ => repr o
  end.

(** ** The queries of [xml.etree.ElementTree] used by the parser *)

Module ET.

(** An element: tag, attributes, text and children in document order. *)
Inductive Element :=
| Elem (tag : string) (attrib : list (string * string))
       (text : option string) (children : list Element).

Definition tag_of (e : Element) : string :=
  match e with Elem t _ _ _ => t end.
Definition attrib_of (e : Element) : list (string * string) :=
  match e with Elem _ a _ _ => a end.
Definition text_of (e : Element) : option string :=
  match e with Elem _ _ t _ => t end.
Definition children_of (e : Element) : list Element :=
  match e with Elem _ _ _ c => c end.

(** [e.iter()]: the element and all its descendants, in document order. *)
Fixpoint iter (e : Element) : list Element :=
  match e with
  | Elem _ _ _ cs => e :: flat_map iter cs
  end.

(** The steps of the path language that occur in the program:
    [//tag], [tag] (or [/tag]) and the predicate [[@key='value']]. *)
Inductive step :=
| Descendant (tag : string)
| Child (tag : string)
| Attr (key value : string).

Definition path := list step.

(** One selector applied to the current result set.  [//tag] yields, for
    each element, the elements of [iter] other than itself that carry the
    tag; [tag] the children that carry it; the predicate keeps the
    elements whose attribute has the value. *)
Definition select (s : step) (result : list Element) : list Element :=
  match s with
  | Descendant t =>
      flat_map (fun elem =>
                  filter (fun e => (tag_of e =? t)%string)
                         (flat_map iter (children_of elem))) result
  | Child t =>
      flat_map (fun elem =>
                  filter (fun e => (tag_of e =? t)%string) (children_of elem))
               result
  | Attr k v =>
      filter (fun elem =>
                match dict_get (attrib_of elem) k with
                | Some v' => (v' =? v)%string
                | None => false
                end) result
  end.

(** [elem.findall(path)] *)
Definition findall (elem : Element) (p : path) : list Element :=
  fold_left (fun result s => select s result) p [elem].

(** [elem.findtext(path)]: the text of the first match ([""] when that
    element has no text), [None] when nothing matches. *)
Definition findtext (elem : Element) (p : path) : option string :=
  match findall elem p with
  | [] => None
  | e :: _ => Some (match text_of e with Some t => t | None => "" end)
  end.

End ET.

(** ** Configuration *)

Module Config.
Definition NCBI_API_BASE := "https://eutils.ncbi.nlm.nih.gov/entrez/eutils".
Definition ARTICLE_VIEW_BASE := "https://pubmed.ncbi.nlm.nih.gov".
Definition REQUEST_TIMEOUT : Z := 30.
Definition RETRY_ATTEMPTS : Z := 3.
Definition RETRY_DELAY : Z := 1.
End Config.

(** ** The world the program runs in *)

(** A GET request: url, query parameters and timeout. *)
Record Request := {
  req_url : string;
  req_params : Dict value;
  req_timeout : Z
}.

(** A response of the remote service.  The body is represented by what
    the two decoders applied to it produce: [response.json()] and
    [ET.fromstring(response.content)]. *)
Record Response := {
  status_code : Z;
  reason : string;
  url : string;
  json : result value;
  fromstring_content : result ET.Element
}.

(** [transport n r] is what the [n]-th call of [requests.get] does when it
    is given the request [r]; [calls] records the requests issued so far,
    [slept] the seconds spent in [time.sleep], [clock] and [ticks] the
    successive readings of [time.time()]. *)
Record World := {
  transport : nat -> Request -> result Response;
  calls : list Request;
  slept : Z;
  clock : nat -> Q;
  ticks : nat
}.

(** Computations: they may raise and they change the world. *)
Definition M (A : Type) := World -> result A * World.

Definition ret {A} (a : A) : M A := fun w => (Ok a, w).
Definition lift {A} (r : result A) : M A := fun w => (r, w).

Definition bind {A B} (m : M A) (k : A -> M B) : M B :=
  fun w =>
    match m w with
    | (Ok a, w') => k a w'
    | (Raise e, w') => (Raise e, w')
    end.

(** [try: body except Exception as e: handler e] *)
Definition try_except {A} (body : M A) (handler : exn -> M A) : M A :=
  fun w =>
    match body w with
    | (Ok a, w') => (Ok a, w')
    | (Raise e, w') => handler e w'
    end.

Declare Scope py_scope.
Delimit Scope py_scope with py.
Notation "x <- m ;; k" := (bind m (fun x => k))
  (at level 100, m at next level, right associativity) : py_scope.
Notation "m ;;; k" := (bind m (fun _ => k))
  (at level 100, right associativity) : py_scope.
Local Open Scope py_scope.

(** The world after one more request has been issued. *)
Definition issued (r : Request) (w : World) : World :=
  {| transport := transport w; calls := calls w ++ [r];
     slept := slept w; clock := clock w; ticks := ticks w |}.

(** The world after [time.sleep(seconds)]. *)
Definition rested (seconds : Z) (w : World) : World :=
  {| transport := transport w; calls := calls w;
     slept := slept w + seconds; clock := clock w; ticks := ticks w |}.

(** [requests.get(url, params=params, timeout=timeout)] *)
Definition requests_get (u : string) (params : Dict value) (timeout : Z)
  : M Response :=
  fun w =>
    let r := {| req_url := u; req_params := params; req_timeout := timeout |} in
    (transport w (List.length (calls w)) r, issued r w).

(** [response.raise_for_status()] *)
Definition raise_for_status (r : Response) : result unit :=
  if (400 <=? status_code r) && (status_code r <? 500) then
    Raise (Exn HTTPError (decimal (status_code r) ++ " Client Error: "
                          ++ reason r ++ " for url: " ++ url r))
  else if (500 <=? status_code r) && (status_code r <? 600) then
    Raise (Exn HTTPError (decimal (status_code r) ++ " Server Error: "
                          ++ reason r ++ " for url: " ++ url r))
  else Ok tt.

(** [time.time()] *)
Definition time_time : M Q :=
  fun w =>
    (Ok (clock w (ticks w)),
     {| transport := transport w; calls := calls w;
        slept := slept w; clock := clock w; ticks := S (ticks w) |}).

(** ** Transport with bounded retry *)

(** The body of the [try] block: the GET and the status check. *)
Definition attempt_request (u : string) (params : Dict value) : M Response :=
  response <- requests_get u params Config.REQUEST_TIMEOUT ;;
  lift (raise_for_status response) ;;;
  ret response.

(** The [while attempt < retries] loop of [make_api_request], entered with
    the current value of [attempt].  Leaving the loop by its condition makes
    the function return [None].  A [RequestException] is counted, re-raised
    when the count reaches [retries] and followed by [time.sleep] and
    another pass otherwise; any other exception leaves the function at
    once.  The calls of [logger] write to the log file only and are left
    out, here and below. *)
Equations? request_loop (u : string) (params : Dict value)
    (retries attempt : Z) (w : World)
  : result (option Response) * World
  by wf (Z.to_nat (retries - attempt)) lt :=
  request_loop u params retries attempt w with Z_lt_dec attempt retries => {
    | right _ => (Ok None, w)
    | left _ with attempt_request u params w => {
        | (Ok response, w1) => (Ok (Some response), w1)
        | (Raise e, w1) with is_request_exception e => {
            | false => (Raise e, w1)
            | true with Z.eq_dec (attempt + 1) retries => {
                | left _ => (Raise e, w1)
                | right _ =>
                    request_loop u params retries (attempt + 1)
                                 (rested Config.RETRY_DELAY w1) } } } }.
Proof. lia. Qed.

Definition make_api_request (endpoint : string) (params : Dict value)
    (retries : Z) : M (option Response) :=
  request_loop (Config.NCBI_API_BASE ++ "/" ++ endpoint) params retries 0.

(** ** Query construction *)

Module QueryBuilder.

Definition create_author_clause (names : list string) : string :=
  match names with
  | [] => ""
  | _ => "(" ++ String.concat " OR " (map (fun name => name ++ "[Author]") names)
             ++ ")"
  end.

Definition create_keyword_clause (terms : list string) : string :=
  match terms with
  | [] => ""
  | _ => "(" ++ String.concat " OR "
                  (map (fun term => term ++ "[Title/Abstract]") terms)
             ++ ")"
  end.

Definition combine_clauses (clauses : list string) : string :=
  String.concat " AND " (filter str_truthy clauses).

End QueryBuilder.

(** ** Search and fetch *)

(** [response.json()], on what [make_api_request] returned. *)
Definition response_json (response : option Response) : M value :=
  match response with
  | Some r => lift (json r)
  | None => lift (no_attribute "NoneType" "json")
  end.

(** [ET.fromstring(response.content)] *)
Definition response_fromstring (response : option Response) : M ET.Element :=
  match response with
  | Some r => lift (fromstring_content r)
  | None => lift (no_attribute "NoneType" "content")
  end.

(** The [try] block of [retrieve_article_ids].  The call of [len] stands
    for the log line that formats [len(id_list)]. *)
Definition search_call `{Interpreter} (search_query : string) (max_count : Z)
  : M (value * Z) :=
  let params := [("db", VStr "pubmed"); ("term", VStr search_query);
                 ("retmax", VInt max_count); ("retmode", VStr "json");
                 ("usehistory", VStr "y")] in
  response <- make_api_request "esearch.fcgi" params Config.RETRY_ATTEMPTS ;;
  data <- response_json response ;;
  esearchresult <- lift (py_get data "esearchresult" (VDict [])) ;;
  id_list <- lift (py_get esearchresult "idlist" (VList [])) ;;
  esearchresult' <- lift (py_get data "esearchresult" (VDict [])) ;;
  count <- lift (py_get esearchresult' "count" (VInt 0)) ;;
  total_count <- lift (py_int count) ;;
  _ <- lift (py_len id_list) ;;
  ret (id_list, total_count).

Definition retrieve_article_ids `{Interpreter} (search_query : string)
    (max_count : Z) : M (value * Z) :=
  if negb (str_truthy search_query) then ret (VList [], 0)
  else
    try_except (search_call search_query max_count)
               (fun e => ret (VList [], 0)).

(** The [try] block of [fetch_article_metadata]. *)
Definition fetch_call (article_ids : value) : M (option ET.Element) :=
  ids <- lift (str_join "," article_ids) ;;
  let params := [("db", VStr "pubmed"); ("id", VStr ids);
                 ("retmode", VStr "xml")] in
  response <- make_api_request "efetch.fcgi" params Config.RETRY_ATTEMPTS ;;
  root <- response_fromstring response ;;
  ret (Some root).

Definition fetch_article_metadata (article_ids : value)
  : M (option ET.Element) :=
  if negb (truthy article_ids) then ret None
  else try_except (fetch_call article_ids) (fun e => ret None).

(** ** Article records *)

(** What the parser stores under a key of a record: a string, the journal
    dictionary, the keyword list or the list of author dictionaries. *)
Inductive field :=
| FStr (s : string)
| FDict (d : Dict string)
| FStrs (l : list string)
| FDicts (l : list (Dict string)).

Definition Article := Dict field.

Definition field_type_name (f : field) : string :=
  match f with
  | FStr _ => "str"
  | FDict _ => "dict"
  | FStrs _ | FDicts _ => "list"
  end.

Definition field_truthy (f : field) : bool :=
  match f with
  | FStr s => str_truthy s
  | FDict d => match d with [] => false | _ => true end
  | FStrs l => match l with [] => false | _ => true end
  | FDicts l => match l with [] => false | _ => true end
  end.

(** The same objects seen as general Python values. *)
Definition box_dict (d : Dict string) : value :=
  VDict (map (fun kv => (fst kv, VStr (snd kv))) d).

Definition box (f : field) : value :=
  match f with
  | FStr s => VStr s
  | FDict d => box_dict d
  | FStrs l => VList (map VStr l)
  | FDicts l => VList (map box_dict l)
  end.

Definition box_article (a : Article) : value :=
  VDict (map (fun kv => (fst kv, box (snd kv))) a).

(** [f.get(key)] for the journal entry of a record. *)
Definition field_get (f : field) (key : string) : result (option string) :=
  match f with
  | FDict d => Ok (dict_get d key)
  | _ => no_attribute (field_type_name f) "get"
  end.

Module ArticleParser.
Import ET.

Definition NA := "N/A".

Definition extract_text (element : Element) (xpath : path) (default : string)
  : string :=
  match findtext element xpath with
  | Some result => if str_truthy result then result else default
  | None => default
  end.

(** The paths of the program, token by token. *)
Definition p_PubmedArticle := [Descendant "PubmedArticle"].
Definition p_PMID := [Descendant "PMID"].
Definition p_ArticleTitle := [Descendant "ArticleTitle"].
Definition p_Journal_Title := [Descendant "Journal"; Child "Title"].
Definition p_Volume :=
  [Descendant "Journal"; Child "JournalIssue"; Child "Volume"].
Definition p_Issue :=
  [Descendant "Journal"; Child "JournalIssue"; Child "Issue"].
Definition p_MedlinePgn := [Descendant "Pagination"; Child "MedlinePgn"].
Definition p_Year := [Descendant "PubDate"; Child "Year"].
Definition p_doi := [Descendant "ELocationID"; Attr "EIdType" "doi"].
Definition p_AbstractText := [Descendant "Abstract"; Child "AbstractText"].
Definition p_Author := [Descendant "Author"].
Definition p_Keyword := [Descendant "Keyword"].

Definition author_entry (author_elem : Element) : list (Dict string) :=
  let lastname := extract_text author_elem [Child "LastName"] "" in
  let forename := extract_text author_elem [Child "ForeName"] "" in
  let initials := extract_text author_elem [Child "Initials"] "" in
  if str_truthy lastname || str_truthy forename || str_truthy initials then
    [[("lastname", lastname); ("forename", forename); ("initials", initials);
      ("full_name", if str_truthy forename then lastname ++ " " ++ forename
                    else lastname ++ " " ++ initials)]]
  else [].

Definition extract_authors (article : Element) : list (Dict string) :=
  flat_map author_entry (findall article p_Author).

Definition extract_keywords (article : Element) : list string :=
  flat_map (fun keyword =>
              match text_of keyword with
              | Some t => if str_truthy t then [t] else []
              | None => []
              end)
           (findall article p_Keyword).

Definition article_data (article : Element) : Article :=
  let pmid := extract_text article p_PMID NA in
  [("id", FStr pmid);
   ("url", FStr (Config.ARTICLE_VIEW_BASE ++ "/" ++ pmid));
   ("title", FStr (extract_text article p_ArticleTitle NA));
   ("journal", FDict
      [("name", extract_text article p_Journal_Title NA);
       ("volume", extract_text article p_Volume NA);
       ("issue", extract_text article p_Issue NA);
       ("pages", extract_text article p_MedlinePgn NA)]);
   ("publication_date", FStr (extract_text article p_Year NA));
   ("doi", FStr (extract_text article p_doi NA));
   ("abstract", FStr (extract_text article p_AbstractText NA));
   ("authors", FDicts (extract_authors article));
   ("keywords", FStrs (extract_keywords article))].

Definition process_articles (root_element : option Element) : list Article :=
  match root_element with
  | None => []
  | Some root => map article_data (findall root p_PubmedArticle)
  end.

End ArticleParser.

(** ** Citation formatting *)

Notation "x <~ r ;; k" := (rbind r (fun x => k))
  (at level 100, r at next level, right associativity) : py_scope.

(** [f.get(key, default)] for the journal entry of a record. *)
Definition field_get_or (f : field) (key default : string) : result string :=
  o <~ field_get f key ;;
  Ok (match o with Some s => s | None => default end).

(** [len(f)] *)
Definition field_len (f : field) : nat :=
  match f with
  | FStr s => String.length s
  | FDict d => List.length d
  | FStrs l => List.length l
  | FDicts l => List.length l
  end.

(** An f-string field [{f}]. *)
Definition fmt `{Interpreter} (f : field) : string := py_str (box f).

(** The loop over [article.get("authors", [])[:6]]: each author is asked
    for its [lastname] and [initials]; an item that is a [str] has no
    [get], and a [dict] cannot be sliced. *)
Definition first_authors (authors : field) : result (list string) :=
  match authors with
  | FDicts l =>
      Ok (map (fun author =>
                 get_or author "lastname" "" ++ " " ++ get_or author "initials" "")
              (firstn 6 l))
  | FStrs l =>
      match firstn 6 l with
      | [] => Ok []
      | _ => no_attribute "str" "get"
      end
  | FStr s =>
      match chars (String.substring 0 6 s) with
      | [] => Ok []
      | _ => no_attribute "str" "get"
      end
  | FDict _ => Raise (Exn TypeError "unhashable type: 'slice'")
  end.

(** The author tokens of a citation: at most six names, then ["et al"]
    when the record has more than six authors. *)
Definition citation_authors (article : Article) : result (list string) :=
  let authors := get_or article "authors" (FDicts []) in
  author_list <~ first_authors authors ;;
  Ok (if (6 <? field_len authors)%nat then (author_list ++ ["et al"])%list
      else author_list).

(** The [try] block of [generate_citation]. *)
Definition citation_text `{Interpreter} (article : Article) : result string :=
  author_list <~ citation_authors article ;;
  let authors_text := String.concat ", " author_list in
  let journal := get_or article "journal" (FDict []) in
  name <~ field_get_or journal "name" "" ;;
  volume <~ field_get_or journal "volume" "" ;;
  let citation :=
    authors_text ++ ". " ++ fmt (get_or article "title" (FStr "")) ++ ". "
    ++ name ++ ". " ++ fmt (get_or article "publication_date" (FStr "")) ++ ";"
    ++ volume in
  issue <~ field_get journal "issue" ;;
  let citation :=
    match issue with
    | Some i => if str_truthy i then citation ++ "(" ++ i ++ ")" else citation
    | None => citation
    end in
  pages <~ field_get journal "pages" ;;
  let citation :=
    match pages with
    | Some p => if str_truthy p then citation ++ ":" ++ p else citation
    | None => citation
    end in
  let citation := citation ++ "." in
  let citation :=
    match dict_get article "doi" with
    | Some doi =>
        if field_truthy doi then citation ++ " doi: " ++ fmt doi else citation
    | None => citation
    end in
  Ok citation.

Definition generate_citation `{Interpreter} (article : Article) : string :=
  match citation_text article with
  | Ok citation => citation
  | Raise _ => "Citation generation failed"
  end.

(** ** Statistics *)

(** [sorted(items, key=key, reverse=True)].  The builtin is a stable sort:
    the result is in descending order of the keys and items with equal
    keys keep the order they had in [items].  It is represented by the
    insertion sort that produces this list. *)
Section SortedReverse.
Context {A K : Type} (key : A -> K) (lt : K -> K -> bool).

Fixpoint insert_desc (x : A) (l : list A) : list A :=
  match l with
  | [] => [x]
  | y :: l' => if lt (key x) (key y) then y :: insert_desc x l' else x :: y :: l'
  end.

Fixpoint sorted_reverse (items : list A) : list A :=
  match items with
  | [] => []
  | x :: items' => insert_desc x (sorted_reverse items')
  end.

End SortedReverse.

(** [d[k] = d.get(k, 0) + 1] *)
Definition count_one (d : Dict Z) (k : string) : Dict Z :=
  dict_set d k (get_or d k 0 + 1).

(** One pass of the loop over the sample in [get_article_statistics]. *)
Definition tally_article (acc : Dict Z * Dict Z) (article : Article)
  : result (Dict Z * Dict Z) :=
  let '(journals, years) := acc in
  journal <~ field_get (get_or article "journal" (FDict [])) "name" ;;
  let journals :=
    match journal with
    | Some j =>
        if str_truthy j && negb (j =? "N/A")%string then count_one journals j
        else journals
    | None => journals
    end in
  match dict_get article "publication_date" with
  | Some (FStr y) =>
      if str_truthy y && negb (y =? "N/A")%string
      then Ok (journals, count_one years y)
      else Ok (journals, years)
  | Some year =>
      if field_truthy year
      then Raise (Exn TypeError
                    ("unhashable type: '" ++ field_type_name year ++ "'"))
      else Ok (journals, years)
  | None => Ok (journals, years)
  end.

Fixpoint tally (articles : list Article) (acc : Dict Z * Dict Z)
  : result (Dict Z * Dict Z) :=
  match articles with
  | [] => Ok acc
  | article :: rest => acc' <~ tally_article acc article ;; tally rest acc'
  end.

(** [sorted(journals.items(), key=lambda x: x[1], reverse=True)[:5]] *)
Definition top_journals (journals : Dict Z) : list (string * Z) :=
  firstn 5 (sorted_reverse snd Z.ltb journals).

(** [sorted(years.items(), key=lambda x: x[0], reverse=True)] *)
Definition publication_years (years : Dict Z) : list (string * Z) :=
  sorted_reverse fst String.ltb years.

(** ** Tool handlers *)

Definition find_articles `{Interpreter} (topics researchers : list string)
    (result_limit : Z) : M (Dict value) :=
  try_except
    (start_time <- time_time ;;
     let author_clause := QueryBuilder.create_author_clause researchers in
     let topic_clause := QueryBuilder.create_keyword_clause topics in
     let query := QueryBuilder.combine_clauses [author_clause; topic_clause] in
     if negb (str_truthy query) then
       ret [("status", VStr "error");
            ("message",
             VStr "Search requires at least one topic or researcher name");
            ("articles", VList [])]
     else
       found <- retrieve_article_ids query result_limit ;;
       let '(article_ids, total_count) := found in
       if negb (truthy article_ids) then
         ret [("status", VStr "success");
              ("message",
               VStr "No articles found matching the search criteria");
              ("total_available", VInt 0);
              ("articles", VList [])]
       else
         root <- fetch_article_metadata article_ids ;;
         let articles := ArticleParser.process_articles root in
         end_time <- time_time ;;
         let elapsed_time := (end_time - start_time)%Q in
         let retrieved := Z.of_nat (List.length articles) in
         ret [("status", VStr "success");
              ("message",
               VStr ("Found " ++ decimal total_count
                     ++ " articles, returning " ++ decimal retrieved));
              ("total_available", VInt total_count);
              ("retrieved", VInt retrieved);
              ("performance",
               VDict [("elapsed_seconds", VFloat (round2 elapsed_time))]);
              ("articles", VList (map box_article articles))])
    (fun e =>
       ret [("status", VStr "error");
            ("message", VStr (str_of e));
            ("articles", VList [])]).

Definition get_publication_details `{Interpreter} (article_id : string)
  : M (Dict value) :=
  try_except
    (if negb (str_truthy article_id) || negb (str_truthy (strip article_id))
     then
       ret [("status", VStr "error");
            ("message", VStr "Article ID is required")]
     else
       root <- fetch_article_metadata (VList [VStr article_id]) ;;
       match root with
       | None =>
           ret [("status", VStr "error");
                ("message",
                 VStr ("Failed to retrieve data for article ID: "
                       ++ article_id))]
       | Some _ =>
           match ArticleParser.process_articles root with
           | [] =>
               ret [("status", VStr "error");
                    ("message",
                     VStr ("No article found with ID: " ++ article_id))]
           | article_data :: _ =>
               let article_data :=
                 dict_set article_data "citation"
                          (FStr (generate_citation article_data)) in
               ret [("status", VStr "success");
                    ("publication", box_article article_data)]
           end
       end)
    (fun e =>
       ret [("status", VStr "error"); ("message", VStr (str_of e))]).

(** [{"name": j[0], "count": j[1]}] and [{"year": y[0], "count": y[1]}] *)
Definition counted (label : string) (item : string * Z) : value :=
  VDict [(label, VStr (fst item)); ("count", VInt (snd item))].

Definition get_article_statistics `{Interpreter} (researcher : string)
  : M (Dict value) :=
  try_except
    (if negb (str_truthy researcher) || negb (str_truthy (strip researcher))
     then
       ret [("status", VStr "error");
            ("message", VStr "Researcher name is required")]
     else
       let query := researcher ++ "[Author]" in
       found <- retrieve_article_ids query 100 ;;
       let '(article_ids, total_count) := found in
       if truthy article_ids then
         recent <- lift (slice_to 10 article_ids) ;;
         root <- fetch_article_metadata recent ;;
         let articles := ArticleParser.process_articles root in
         counts <- lift (tally articles ([], [])) ;;
         let '(journals, years) := counts in
         ret [("status", VStr "success");
              ("researcher", VStr researcher);
              ("total_publications", VInt total_count);
              ("recent_sample_size", VInt (Z.of_nat (List.length articles)));
              ("top_journals",
               VList (map (counted "name") (top_journals journals)));
              ("publication_years",
               VList (map (counted "year") (publication_years years)));
              ("sample_titles",
               VList (map (fun a => match dict_get a "title" with
                                    | Some t => box t
                                    | None => VNone
                                    end)
                          (firstn 5 articles)))]
       else
         ret [("status", VStr "success");
              ("researcher", VStr researcher);
              ("total_publications", VInt 0);
              ("message", VStr "No publications found for this researcher")])
    (fun e =>
       ret [("status", VStr "error"); ("message", VStr (str_of e))]).


(** * Vocabulary of the properties *)

(** ** Transport *)

Section Transport.
Variables (endpoint : string) (params : Dict value).

(** The request that [make_api_request] issues at every attempt. *)
Definition request_of : Request :=
  {| req_url := Config.NCBI_API_BASE ++ "/" ++ endpoint;
     req_params := params;
     req_timeout := Config.REQUEST_TIMEOUT |}.

(** What the status check makes of the outcome of a GET. *)
Definition checked (o : result Response) : result Response :=
  response <~ o ;; _ <~ raise_for_status response ;; Ok response.

(** Outcome of the [i]-th attempt made from the world [w] on, counted
    from 0. *)
Definition attempt_outcome (w : World) (i : nat) : result Response :=
  checked (transport w (List.length (calls w) + i)%nat request_of).

(** A transport failure: the attempt raises a [RequestException]. *)
Definition attempt_fails (w : World) (i : nat) : Prop :=
  exists e, attempt_outcome w i = Raise e /\ is_request_exception e = true.

(** The world after [n] failed attempts, each followed by the pause. *)
Fixpoint retried (n : nat) (w : World) : World :=
  match n with
  | O => w
  | S n' => retried n' (rested Config.RETRY_DELAY (issued request_of w))
  end.

End Transport.

(** ** Records *)

Section Records.
Import ET ArticleParser.

(** The path has no match in the article, or its first match has no text. *)
Definition missing (article : Element) (p : path) : Prop :=
  findtext article p = None \/ findtext article p = Some "".

Definition has_str (d : Article) (key : string) : Prop :=
  exists s, dict_get d key = Some (FStr s).

(** Every key of a record is there, with a value of the expected shape. *)
Definition fully_populated (r : Article) : Prop :=
  has_str r "id" /\ has_str r "url" /\ has_str r "title"
  /\ (exists j, dict_get r "journal" = Some (FDict j)
                /\ forall k, In k ["name"; "volume"; "issue"; "pages"] ->
                             exists s, dict_get j k = Some s)
  /\ has_str r "publication_date" /\ has_str r "doi" /\ has_str r "abstract"
  /\ (exists l, dict_get r "authors" = Some (FDicts l))
  /\ (exists l, dict_get r "keywords" = Some (FStrs l)).

(** The scalar fields of a record and the path each one is read from. *)
Definition scalar_paths : list (string * path) :=
  [("id", p_PMID); ("title", p_ArticleTitle); ("publication_date", p_Year);
   ("doi", p_doi); ("abstract", p_AbstractText)].

Definition journal_paths : list (string * path) :=
  [("name", p_Journal_Title); ("volume", p_Volume); ("issue", p_Issue);
   ("pages", p_MedlinePgn)].

(** Fields whose path is missing hold the placeholder; without author or
    keyword nodes the two lists are empty. *)
Definition defaulted (article : Element) (r : Article) : Prop :=
  (forall key p, In (key, p) scalar_paths -> missing article p ->
                 dict_get r key = Some (FStr "N/A"))
  /\ (forall key p, In (key, p) journal_paths -> missing article p ->
                    exists j, dict_get r "journal" = Some (FDict j)
                              /\ dict_get j key = Some "N/A")
  /\ (findall article p_Author = [] -> dict_get r "authors" = Some (FDicts []))
  /\ (findall article p_Keyword = [] ->
      dict_get r "keywords" = Some (FStrs [])).

End Records.

(** ** Citations *)

(** An author as the citation shows it. *)
Definition author_token (author : Dict string) : string :=
  get_or author "lastname" "" ++ " " ++ get_or author "initials" "".

(** ** Statistics *)

(** A name or year that is counted: present, not empty, not the
    placeholder. *)
Definition counted_key (s : string) : bool :=
  str_truthy s && negb (s =? "N/A")%string.

(** The journal names of a sample that are counted, in sample order. *)
Definition journal_names (sample : list Article) : list string :=
  flat_map (fun a =>
              match get_or a "journal" (FDict []) with
              | FDict j => match dict_get j "name" with
                           | Some n => if counted_key n then [n] else []
                           | None => []
                           end
              | _ => []
              end) sample.

(** The years of a sample that are counted, in sample order. *)
Definition observed_years (sample : list Article) : list string :=
  flat_map (fun a =>
              match dict_get a "publication_date" with
              | Some (FStr y) => if counted_key y then [y] else []
              | _ => []
              end) sample.

(** Position of the first occurrence. *)
Fixpoint index_of (x : string) (l : list string) : nat :=
  match l with
  | [] => O
  | y :: l' => if (y =? x)%string then O else S (index_of x l')
  end.

Definition occurrences (x : string) (l : list string) : Z :=
  Z.of_nat (count_occ string_dec l x).

(** [a] is ranked before [b]: more publications, or as many and a name
    that was met earlier in the sample. *)
Definition ranks_before (names : list string) (a b : string * Z) : Prop :=
  snd b < snd a
  \/ (snd a = snd b /\ (index_of (fst a) names < index_of (fst b) names)%nat).

(** The journals of a sample, each with its number of publications, in
    ranking order. *)
Definition ranking (names : list string) (l : list (string * Z)) : Prop :=
  StronglySorted (ranks_before names) l
  /\ forall n c, In (n, c) l <-> In n names /\ c = occurrences n names.

(** Descending order of the year strings. *)
Definition later_first (a b : string * Z) : Prop :=
  String.ltb (fst b) (fst a) = true.

(** The dictionary obtained by counting the names one after the other. *)
Definition counts (names : list string) : Dict Z :=
  fold_left count_one names [].

(** [a] was met before [b] in [names]. *)
Definition met_before (names : list string) (a b : string) : Prop :=
  (index_of a names < index_of b names)%nat.

(** ** Sample data *)

(** An interpreter for the examples: [int()] reads plain decimal digits. *)
Fixpoint digits_value (acc : Z) (l : list ascii) : option Z :=
  match l with
  | [] => Some acc
  | c :: l' =>
      let n := nat_of_ascii c in
      if ((48 <=? n) && (n <=? 57))%nat
      then digits_value (10 * acc + Z.of_nat (n - 48)) l'
      else None
  end.

Definition sample_interpreter : Interpreter :=
  {| int_of_str := fun s =>
       match list_ascii_of_string s with
       | [] => Raise (Exn ValueError "invalid literal for int()")
       | l => match digits_value 0 l with
              | Some z => Ok z
              | None => Raise (Exn ValueError "invalid literal for int()")
              end
       end;
     repr := fun v => "<" ++ type_name v ++ ">";
     round2 := fun q => q |}.

Definition timed_out : exn := Exn RequestException "Read timed out.".

(** A 200 response with the given decodings of its body. *)
Definition ok_response (j : result value) (x : result ET.Element)
  : Response :=
  {| status_code := 200; reason := "OK"; url := "";
     json := j; fromstring_content := x |}.

Definition not_json : result value :=
  Raise (Exn OtherError "Expecting value").
Definition not_xml : result ET.Element :=
  Raise (Exn OtherError "syntax error").

(** A fresh world with the given transport. *)
Definition world_of (t : nat -> Request -> result Response) : World :=
  {| transport := t; calls := []; slept := 0;
     clock := fun n => inject_Z (Z.of_nat n); ticks := 0 |}.

(** A service that never answers. *)
Definition down : nat -> Request -> result Response :=
  fun _ _ => Raise timed_out.

(** A service that times out [n] times and then answers with [r]. *)
Definition flaky (n : nat) (r : Response) : nat -> Request -> result Response :=
  fun i _ => if (i <? n)%nat then Raise timed_out else Ok r.

(** A service that answers the first request with [r] and then goes down. *)
Definition once (r : Response) : nat -> Request -> result Response :=
  fun i _ => match i with O => Ok r | _ => Raise timed_out end.

Definition two_hits : value :=
  VDict [("esearchresult",
          VDict [("count", VStr "2");
                 ("idlist", VList [VStr "31452104"; VStr "30049270"])])].

Definition leaf (tag text : string) : ET.Element :=
  ET.Elem tag [] (Some text) [].

Definition author_node (lastname forename initials : string) : ET.Element :=
  ET.Elem "Author" []
    None [leaf "LastName" lastname; leaf "ForeName" forename;
          leaf "Initials" initials].

(** An article of a journal that has volumes but no issues, without page
    range and without DOI. *)
Definition plain_article : ET.Element :=
  ET.Elem "PubmedArticle" [] None
    [ET.Elem "MedlineCitation" [] None
       [leaf "PMID" "31452104";
        ET.Elem "Article" [] None
          [ET.Elem "Journal" [] None
             [ET.Elem "JournalIssue" [] None
                [leaf "Volume" "12";
                 ET.Elem "PubDate" [] None [leaf "Year" "2019"]];
              leaf "Title" "Thorax"];
           leaf "ArticleTitle" "Asthma in adults";
           ET.Elem "AuthorList" [] None [author_node "Smith" "John" "J"]]]].

Definition plain_document : ET.Element :=
  ET.Elem "PubmedArticleSet" [] None [plain_article].

(** A record with eight authors. *)
Definition eight_authors : Article :=
  [("title", FStr "Asthma in adults");
   ("journal", FDict [("name", "Thorax"); ("volume", "12")]);
   ("publication_date", FStr "2019");
   ("authors",
    FDicts (map (fun n => [("lastname", n); ("initials", "A")])
                ["Ames"; "Berg"; "Cole"; "Diaz"; "Eze"; "Fox"; "Gray"; "Hill"]))].

(** An article node that only names its journal and its year. *)
Definition published (journal year : string) : ET.Element :=
  ET.Elem "PubmedArticle" [] None
    [ET.Elem "Journal" [] None
       [leaf "Title" journal;
        ET.Elem "JournalIssue" [] None
          [ET.Elem "PubDate" [] None [leaf "Year" year]]]].

(** A researcher with eight sampled articles in six journals. *)
Definition eight_articles : ET.Element :=
  ET.Elem "PubmedArticleSet" [] None
    [published "Lancet" "2021"; published "Thorax" "2019";
     published "Chest" "2023"; published "Thorax" "2021";
     published "Gut" "2021"; published "Lancet" "2019";
     published "BMJ" "2023"; published "JAMA" "2021"].

(** A researcher with three sampled articles. *)
Definition three_articles : ET.Element :=
  ET.Elem "PubmedArticleSet" [] None
    [published "Lancet" "2021"; published "Thorax" "2019";
     published "Chest" "2023"].

(** A service that answers the search with two identifiers and the fetch
    with the given document. *)
Definition library (document : ET.Element)
  : nat -> Request -> result Response :=
  fun i _ =>
    match i with
    | O => Ok (ok_response (Ok two_hits) not_xml)
    | _ => Ok (ok_response not_json (Ok document))
    end.

(** * Vocabulary of the further properties *)

(** ** Requests of the search and of the fetch *)

Definition search_params (search_query : string) (max_count : Z)
  : Dict value :=
  [("db", VStr "pubmed"); ("term", VStr search_query);
   ("retmax", VInt max_count); ("retmode", VStr "json");
   ("usehistory", VStr "y")].

Definition search_request (search_query : string) (max_count : Z) : Request :=
  request_of "esearch.fcgi" (search_params search_query max_count).

Definition fetch_params (ids : string) : Dict value :=
  [("db", VStr "pubmed"); ("id", VStr ids); ("retmode", VStr "xml")].

(** The single batched request for the given identifiers. *)
Definition fetch_request (ids : list string) : Request :=
  request_of "efetch.fcgi" (fetch_params (String.concat "," ids)).

(** A response whose status makes [raise_for_status] raise. *)
Definition error_status (r : Response) : Prop :=
  400 <= status_code r < 600.

(** A string made of whitespace characters only (the empty string
    included). *)
Definition blank (s : string) : Prop :=
  forallb is_space (characters (list_ascii_of_string s)) = true.

(** Whitespace that is not ASCII: a no-break space (U+00A0) and an em space
    (U+2003); [padding] is a space, a tab, a no-break space and an em
    space. *)
Definition no_break_space : string :=
  String (ascii_of_nat 194) (String (ascii_of_nat 160) "").

Definition em_space : string :=
  String (ascii_of_nat 226)
    (String (ascii_of_nat 128) (String (ascii_of_nat 131) "")).

Definition padding : string :=
  String " " (String (ascii_of_nat 9) (no_break_space ++ em_space)).

(** Further sample services. *)
Definition unavailable : Response :=
  {| status_code := 503; reason := "Service Unavailable"; url := "";
     json := not_json; fromstring_content := not_xml |}.

Definition not_modified : Response :=
  {| status_code := 304; reason := "Not Modified"; url := "";
     json := not_json; fromstring_content := not_xml |}.

(** A service that answers every request with 503. *)
Definition overloaded : nat -> Request -> result Response :=
  fun _ _ => Ok unavailable.

(** A transport that fails outside the [requests] exception hierarchy. *)
Definition broken : nat -> Request -> result Response :=
  fun _ _ => Raise (Exn OtherError "unexpected failure").

(** A search that matches 57 articles and is asked for none of them. *)
Definition count_only : value :=
  VDict [("esearchresult", VDict [("count", VStr "57"); ("idlist", VList [])])].

(** ** Handlers *)

(** The query [find_articles] builds from its two lists. *)
Definition query_of (topics researchers : list string) : string :=
  QueryBuilder.combine_clauses
    [QueryBuilder.create_author_clause researchers;
     QueryBuilder.create_keyword_clause topics].

(** The world after one reading of the clock. *)
Definition ticked (w : World) : World := snd (time_time w).

(** The envelope of a search without result. *)
Definition no_articles_found : Dict value :=
  [("status", VStr "success");
   ("message", VStr "No articles found matching the search criteria");
   ("total_available", VInt 0);
   ("articles", VList [])].

(** An article with keyword nodes, one of them empty and one without
    text, a personal author without forename and a collective author. *)
Definition keyworded_article : ET.Element :=
  ET.Elem "PubmedArticle" [] None
    [ET.Elem "AuthorList" [] None
       [ET.Elem "Author" [] None [leaf "LastName" "Smith"; leaf "Initials" "J"];
        ET.Elem "Author" [] None [leaf "CollectiveName" "Asthma Study Group"]];
     ET.Elem "KeywordList" [] None
       [leaf "Keyword" "asthma"; leaf "Keyword" "";
        ET.Elem "Keyword" [] None []; leaf "Keyword" "adult"]].

(** The sum of the counts of a list of counted names. *)
Definition total_count (l : list (string * Z)) : Z :=
  fold_right (fun item sum => snd item + sum) 0 l.

(** An optional part of a citation: shown, between its delimiters, when
    the value is there and not empty. *)
Definition segment (before : string) (o : option string) (after : string)
  : string :=
  match o with
  | Some s => if str_truthy s then before ++ s ++ after else ""
  | None => ""
  end.

(** The envelope for a researcher without publication. *)
Definition no_publications (researcher : string) : Dict value :=
  [("status", VStr "success");
   ("researcher", VStr researcher);
   ("total_publications", VInt 0);
   ("message", VStr "No publications found for this researcher")].

(** Twelve identifiers. *)
Definition twelve_hits : value :=
  VDict [("esearchresult",
          VDict [("count", VStr "340");
                 ("idlist",
                  VList (map VStr ["1"; "2"; "3"; "4"; "5"; "6"; "7"; "8";
                                   "9"; "10"; "11"; "12"]))])].

(** A service that answers the search with twelve identifiers and the
    fetch with the given document. *)
Definition archive (document : ET.Element)
  : nat -> Request -> result Response :=
  fun i _ =>
    match i with
    | O => Ok (ok_response (Ok twelve_hits) not_xml)
    | _ => Ok (ok_response not_json (Ok document))
    end.

(** * Properties *)

Local Open Scope py_scope.

(** ** The retry loop *)

Lemma request_loop_body u params retries attempt w :
  request_loop u params retries attempt w =
  if attempt <? retries then
    match attempt_request u params w with
    | (Ok response, w1) => (Ok (Some response), w1)
    | (Raise e, w1) =>
        if is_request_exception e then
          if attempt + 1 =? retries then (Raise e, w1)
          else request_loop u params retries (attempt + 1)
                            (rested Config.RETRY_DELAY w1)
        else (Raise e, w1)
    end
  else (Ok None, w).
Proof.
  simp request_loop.
  destruct (Z_lt_dec attempt retries) as [Hlt | Hge]; simpl.
  - destruct (Z.ltb_spec attempt retries); [| lia].
    destruct (attempt_request u params w) as [[response | e] w1]; simpl.
    + reflexivity.
    + destruct (is_request_exception e); simpl; [| reflexivity].
      destruct (Z.eq_dec (attempt + 1) retries) as [Heq | Hne]; simpl.
      * destruct (Z.eqb_spec (attempt + 1) retries); [reflexivity | lia].
      * destruct (Z.eqb_spec (attempt + 1) retries); [lia | reflexivity].
  - destruct (Z.ltb_spec attempt retries); [lia | reflexivity].
Qed.

Section TransportFacts.
Variables (endpoint : string) (params : Dict value).

Let req := request_of endpoint params.
Let u := Config.NCBI_API_BASE ++ "/" ++ endpoint.

Lemma attempt_request_outcome w :
  attempt_request u params w
  = (attempt_outcome endpoint params w 0, issued req w).
Proof.
  unfold attempt_request, attempt_outcome, checked, bind, requests_get, lift, ret.
  rewrite Nat.add_0_r. fold u. fold req.
  change {| req_url := u; req_params := params;
            req_timeout := Config.REQUEST_TIMEOUT |} with req.
  destruct (transport w (List.length (calls w)) req) as [response | e]; simpl.
  - destruct (raise_for_status response); reflexivity.
  - reflexivity.
Qed.

Lemma attempt_outcome_shift w i :
  attempt_outcome endpoint params (rested Config.RETRY_DELAY (issued req w)) i
  = attempt_outcome endpoint params w (S i).
Proof.
  unfold attempt_outcome. simpl. rewrite length_app. simpl.
  replace (List.length (calls w) + 1 + i)%nat
    with (List.length (calls w) + S i)%nat by lia.
  reflexivity.
Qed.

Lemma calls_retried n w :
  calls (retried endpoint params n w) = (calls w ++ repeat req n)%list.
Proof.
  revert w. induction n as [| n IH]; intros w; simpl.
  - now rewrite app_nil_r.
  - rewrite IH. simpl. rewrite <- app_assoc. reflexivity.
Qed.

Lemma attempt_outcome_retried n w i :
  attempt_outcome endpoint params (retried endpoint params n w) i
  = attempt_outcome endpoint params w (n + i).
Proof.
  revert w i. induction n as [| n IH]; intros w i; simpl.
  - reflexivity.
  - rewrite IH, attempt_outcome_shift. reflexivity.
Qed.

Lemma calls_issued_retried n w :
  calls (issued req (retried endpoint params n w))
  = (calls w ++ repeat req (S n))%list.
Proof.
  simpl. rewrite calls_retried, <- app_assoc.
  f_equal. symmetry. apply repeat_cons.
Qed.

(** As long as the attempts fail and the budget is not used up, the loop
    goes round. *)
Lemma request_loop_failures retries n : forall attempt w,
  attempt + Z.of_nat n < retries ->
  (forall i, (i < n)%nat -> attempt_fails endpoint params w i) ->
  request_loop u params retries attempt w
  = request_loop u params retries (attempt + Z.of_nat n)
                 (retried endpoint params n w).
Proof.
  induction n as [| n IH]; intros attempt w Hlt Hfail.
  - simpl. now rewrite Z.add_0_r.
  - rewrite request_loop_body.
    destruct (Z.ltb_spec attempt retries); [| lia].
    rewrite attempt_request_outcome.
    destruct (Hfail O) as (e & He & Hreq); [lia |].
    rewrite He, Hreq.
    destruct (Z.eqb_spec (attempt + 1) retries); [lia |].
    rewrite IH.
    + simpl. f_equal. lia.
    + lia.
    + intros i Hi. unfold attempt_fails.
      fold req. rewrite attempt_outcome_shift. apply Hfail. lia.
Qed.

Lemma make_api_request_exhausted retries w :
  0 < retries ->
  (forall i, (i < Z.to_nat retries)%nat -> attempt_fails endpoint params w i) ->
  exists e,
    attempt_outcome endpoint params w (Z.to_nat retries - 1) = Raise e
    /\ make_api_request endpoint params retries w
       = (Raise e, issued req (retried endpoint params (Z.to_nat retries - 1) w)).
Proof.
  intros Hpos Hfail. unfold make_api_request. fold u.
  set (n := (Z.to_nat retries - 1)%nat).
  destruct (Hfail n) as (e & He & Hreq); [lia |].
  exists e. split; [exact He |].
  rewrite (request_loop_failures retries n); [| lia | intros; apply Hfail; lia].
  rewrite request_loop_body.
  destruct (Z.ltb_spec (0 + Z.of_nat n) retries); [| lia].
  rewrite attempt_request_outcome, attempt_outcome_retried, Nat.add_0_r, He, Hreq.
  destruct (Z.eqb_spec (0 + Z.of_nat n + 1) retries); [reflexivity | lia].
Qed.

Lemma make_api_request_succeeds retries w k response :
  Z.of_nat k < retries ->
  (forall i, (i < k)%nat -> attempt_fails endpoint params w i) ->
  attempt_outcome endpoint params w k = Ok response ->
  make_api_request endpoint params retries w
  = (Ok (Some response), issued req (retried endpoint params k w)).
Proof.
  intros Hlt Hfail Hok. unfold make_api_request. fold u.
  rewrite (request_loop_failures retries k); [| lia | exact Hfail].
  rewrite request_loop_body.
  destruct (Z.ltb_spec (0 + Z.of_nat k) retries); [| lia].
  now rewrite attempt_request_outcome, attempt_outcome_retried, Nat.add_0_r, Hok.
Qed.

End TransportFacts.

(** ** Claims about the transport *)

(** C2.  With the default budget of three attempts: when every attempt
    fails, [make_api_request] makes exactly three requests and raises the
    failure of the last one; when the attempt of index [k] (the [k+1]-th)
    is the first to succeed, it makes exactly [k+1] requests and returns
    that response. *)
Theorem make_api_request_retry_budget endpoint params w :
  Config.RETRY_ATTEMPTS = 3
  /\ ((forall i, (i < 3)%nat -> attempt_fails endpoint params w i) ->
      exists e w',
        make_api_request endpoint params Config.RETRY_ATTEMPTS w = (Raise e, w')
        /\ attempt_outcome endpoint params w 2 = Raise e
        /\ calls w' = (calls w ++ repeat (request_of endpoint params) 3)%list)
  /\ (forall k response,
        (k < 3)%nat ->
        (forall i, (i < k)%nat -> attempt_fails endpoint params w i) ->
        attempt_outcome endpoint params w k = Ok response ->
        exists w',
          make_api_request endpoint params Config.RETRY_ATTEMPTS w
          = (Ok (Some response), w')
          /\ calls w'
             = (calls w ++ repeat (request_of endpoint params) (S k))%list).
Proof.
  split; [reflexivity | split].
  - intros Hfail.
    destruct (make_api_request_exhausted endpoint params Config.RETRY_ATTEMPTS w)
      as (e & He & Hrun); [reflexivity | exact Hfail |].
    exists e. eexists. split; [exact Hrun |]. split; [exact He |].
    apply calls_issued_retried.
  - intros k response Hk Hfail Hok.
    eexists. split.
    + apply (make_api_request_succeeds endpoint params _ w k response);
        [unfold Config.RETRY_ATTEMPTS; lia | exact Hfail | exact Hok].
    + apply calls_issued_retried.
Qed.

Lemma make_api_request_retry_budget_witness :
  let w := world_of (flaky 2 (ok_response not_json not_xml)) in
  let d := world_of down in
  ((forall i, (i < 3)%nat -> attempt_fails "esearch.fcgi" [] d i)
   /\ exists e w',
       make_api_request "esearch.fcgi" [] Config.RETRY_ATTEMPTS d = (Raise e, w')
       /\ attempt_outcome "esearch.fcgi" [] d 2 = Raise e
       /\ calls w' = (calls d ++ repeat (request_of "esearch.fcgi" []) 3)%list)
  /\ ((2 < 3)%nat
      /\ (forall i, (i < 2)%nat -> attempt_fails "esearch.fcgi" [] w i)
      /\ attempt_outcome "esearch.fcgi" [] w 2
         = Ok (ok_response not_json not_xml)
      /\ exists w',
          make_api_request "esearch.fcgi" [] Config.RETRY_ATTEMPTS w
          = (Ok (Some (ok_response not_json not_xml)), w')
          /\ calls w' = (calls w ++ repeat (request_of "esearch.fcgi" []) 3)%list).
Proof.
  intros w d.
  assert (Hd : forall i, (i < 3)%nat -> attempt_fails "esearch.fcgi" [] d i).
  { intros i _. exists timed_out. split; reflexivity. }
  assert (Hw : forall i, (i < 2)%nat -> attempt_fails "esearch.fcgi" [] w i).
  { intros i Hi. exists timed_out.
    destruct i as [| [| i]]; [split; reflexivity | split; reflexivity | exfalso; lia]. }
  split.
  - split; [exact Hd |].
    exact (proj1 (proj2 (make_api_request_retry_budget "esearch.fcgi" [] d)) Hd).
  - split; [lia |]. split; [exact Hw |]. split; [reflexivity |].
    refine (proj2 (proj2 (make_api_request_retry_budget "esearch.fcgi" [] w))
                  2%nat _ _ Hw _); [lia | reflexivity].
Defined.

(** C9.  Called with [retries <= 0], [make_api_request] does not enter its
    loop: it issues no request, raises nothing and returns [None], leaving
    the world as it was. *)
Theorem make_api_request_without_budget endpoint params retries w :
  retries <= 0 ->
  make_api_request endpoint params retries w = (Ok None, w).
Proof.
  intros Hle. unfold make_api_request. rewrite request_loop_body.
  destruct (Z.ltb_spec 0 retries); [lia | reflexivity].
Qed.

Lemma make_api_request_without_budget_witness :
  0 <= 0
  /\ make_api_request "efetch.fcgi" [] 0 (world_of down)
     = (Ok None, world_of down).
Proof.
  split; [lia |].
  apply (make_api_request_without_budget "efetch.fcgi" [] 0 (world_of down)).
  lia.
Defined.

(** X2.  An exception that is not a [RequestException] is not retried:
    it leaves the function at the first attempt, after a single request,
    whatever the budget. *)
Lemma make_api_request_other_exception endpoint params retries w e :
  0 < retries ->
  attempt_outcome endpoint params w 0 = Raise e ->
  is_request_exception e = false ->
  make_api_request endpoint params retries w
  = (Raise e, issued (request_of endpoint params) w).
Proof.
  intros Hpos Hraise Hclass. unfold make_api_request.
  rewrite request_loop_body.
  destruct (Z.ltb_spec 0 retries); [| lia].
  now rewrite attempt_request_outcome, Hraise, Hclass.
Qed.

(** ** Examples of query construction *)

Example create_author_clause_two :
  QueryBuilder.create_author_clause ["Smith J"; "Doe A"]
  = "(Smith J[Author] OR Doe A[Author])".
Proof. reflexivity. Qed.

Example combine_clauses_skips_empty :
  QueryBuilder.combine_clauses [] = ""
  /\ QueryBuilder.combine_clauses [""; ""] = ""
  /\ QueryBuilder.combine_clauses ["a"; ""; "b"] = "a AND b".
Proof. repeat split. Qed.

(** ** Claims about the search and the [find_articles] handler *)

Lemma retrieve_article_ids_unfold `{Interpreter} q max_count w :
  q <> "" ->
  retrieve_article_ids q max_count w
  = match search_call q max_count w with
    | (Ok found, w') => (Ok found, w')
    | (Raise _, w') => (Ok (VList [], 0), w')
    end.
Proof.
  intros Hq. unfold retrieve_article_ids, str_truthy.
  destruct (String.eqb_spec q ""); [contradiction |]. reflexivity.
Qed.

(** C1.  [retrieve_article_ids] answers an empty query with [([], 0)] and
    leaves the world untouched (no request is issued); it never raises;
    and whenever the search call or the decoding of its response raises,
    the result is [([], 0)]. *)
Theorem retrieve_article_ids_fail_soft `{Interpreter} q max_count w :
  (q = "" -> retrieve_article_ids q max_count w = (Ok (VList [], 0), w))
  /\ (exists found w', retrieve_article_ids q max_count w = (Ok found, w'))
  /\ (forall e w',
        q <> "" ->
        search_call q max_count w = (Raise e, w') ->
        retrieve_article_ids q max_count w = (Ok (VList [], 0), w')).
Proof.
  split; [| split].
  - intros ->. reflexivity.
  - destruct (String.eqb_spec q "") as [-> | Hq].
    + now exists (VList [], 0), w.
    + rewrite retrieve_article_ids_unfold by exact Hq.
      destruct (search_call q max_count w) as [[found | e] w']; eauto.
  - intros e w' Hq Hraise.
    rewrite retrieve_article_ids_unfold by exact Hq. now rewrite Hraise.
Qed.

Lemma retrieve_article_ids_fail_soft_witness :
  let q := "(asthma[Title/Abstract])" in
  let w := world_of down in
  let w' := snd (@search_call sample_interpreter q 15 w) in
  q <> ""
  /\ @search_call sample_interpreter q 15 w = (Raise timed_out, w')
  /\ List.length (calls w') = 3%nat
  /\ @retrieve_article_ids sample_interpreter q 15 w = (Ok (VList [], 0), w').
Proof.
  intros q w w'.
  assert (Hq : q <> "") by discriminate.
  assert (Hraise : @search_call sample_interpreter q 15 w = (Raise timed_out, w'))
    by (vm_compute; reflexivity).
  split; [exact Hq |]. split; [exact Hraise |].
  split; [vm_compute; reflexivity |].
  exact (proj2 (proj2 (@retrieve_article_ids_fail_soft sample_interpreter q 15 w))
               timed_out w' Hq Hraise).
Defined.

Lemma create_author_clause_empty names :
  QueryBuilder.create_author_clause names = "" <-> names = [].
Proof.
  destruct names; simpl; split; intros; try reflexivity; discriminate.
Qed.

Lemma create_keyword_clause_empty terms :
  QueryBuilder.create_keyword_clause terms = "" <-> terms = [].
Proof.
  destruct terms; simpl; split; intros; try reflexivity; discriminate.
Qed.

(** C3.  When neither list yields a clause, [find_articles] returns the
    validation envelope and issues no request. *)
Theorem find_articles_requires_criteria `{Interpreter}
    topics researchers result_limit w :
  QueryBuilder.create_keyword_clause topics = "" ->
  QueryBuilder.create_author_clause researchers = "" ->
  exists w',
    find_articles topics researchers result_limit w
    = (Ok [("status", VStr "error");
           ("message",
            VStr "Search requires at least one topic or researcher name");
           ("articles", VList [])], w')
    /\ calls w' = calls w.
Proof.
  intros Htopics Hresearchers.
  unfold find_articles, try_except, bind.
  rewrite Htopics, Hresearchers. simpl.
  eexists. split; reflexivity.
Qed.

Lemma find_articles_requires_criteria_witness :
  QueryBuilder.create_keyword_clause [] = ""
  /\ QueryBuilder.create_author_clause [] = ""
  /\ exists w',
      @find_articles sample_interpreter [] [] 15 (world_of down)
      = (Ok [("status", VStr "error");
             ("message",
              VStr "Search requires at least one topic or researcher name");
             ("articles", VList [])], w')
      /\ calls w' = calls (world_of down).
Proof.
  split; [reflexivity |]. split; [reflexivity |].
  apply (@find_articles_requires_criteria sample_interpreter [] [] 15
           (world_of down)); reflexivity.
Defined.

(** C10.  When the search yields identifiers and the metadata fetch yields
    nothing, [find_articles] still answers with a success envelope: no
    article retrieved, an empty article list, and the total reported by the
    search. *)
Theorem find_articles_fetch_failure `{Interpreter}
    topics researchers result_limit w ids total w1 w2 :
  let query :=
    QueryBuilder.combine_clauses
      [QueryBuilder.create_author_clause researchers;
       QueryBuilder.create_keyword_clause topics] in
  query <> "" ->
  retrieve_article_ids query result_limit (snd (time_time w))
  = (Ok (ids, total), w1) ->
  truthy ids = true ->
  fetch_article_metadata ids w1 = (Ok None, w2) ->
  exists env w',
    find_articles topics researchers result_limit w = (Ok env, w')
    /\ dict_get env "status" = Some (VStr "success")
    /\ dict_get env "total_available" = Some (VInt total)
    /\ dict_get env "retrieved" = Some (VInt 0)
    /\ dict_get env "articles" = Some (VList []).
Proof.
  intros query Hquery Hsearch Hids Hfetch.
  unfold find_articles, try_except, bind. simpl.
  fold query. unfold str_truthy.
  destruct (String.eqb_spec query ""); [contradiction |]. simpl.
  simpl in Hsearch. rewrite Hsearch, Hids. simpl. rewrite Hfetch. simpl.
  do 2 eexists. split; [reflexivity |]. repeat split.
Qed.

Lemma find_articles_fetch_failure_witness :
  let w := world_of (once (ok_response (Ok two_hits) not_xml)) in
  let query := "(asthma[Title/Abstract])" in
  let ids := VList [VStr "31452104"; VStr "30049270"] in
  let w1 := snd (@retrieve_article_ids sample_interpreter query 15
                   (snd (time_time w))) in
  let w2 := snd (fetch_article_metadata ids w1) in
  QueryBuilder.combine_clauses
    [QueryBuilder.create_author_clause [];
     QueryBuilder.create_keyword_clause ["asthma"]] <> ""
  /\ @retrieve_article_ids sample_interpreter query 15 (snd (time_time w))
     = (Ok (ids, 2), w1)
  /\ truthy ids = true
  /\ fetch_article_metadata ids w1 = (Ok None, w2)
  /\ exists env w',
      @find_articles sample_interpreter ["asthma"] [] 15 w = (Ok env, w')
      /\ dict_get env "status" = Some (VStr "success")
      /\ dict_get env "total_available" = Some (VInt 2)
      /\ dict_get env "retrieved" = Some (VInt 0)
      /\ dict_get env "articles" = Some (VList []).
Proof.
  intros w query ids w1 w2.
  assert (Hq : QueryBuilder.combine_clauses
                 [QueryBuilder.create_author_clause [];
                  QueryBuilder.create_keyword_clause ["asthma"]] <> "")
    by discriminate.
  assert (Hs : @retrieve_article_ids sample_interpreter query 15
                 (snd (time_time w)) = (Ok (ids, 2), w1))
    by (vm_compute; reflexivity).
  assert (Hf : fetch_article_metadata ids w1 = (Ok None, w2))
    by (vm_compute; reflexivity).
  split; [exact Hq |]. split; [exact Hs |]. split; [reflexivity |].
  split; [exact Hf |].
  exact (@find_articles_fetch_failure sample_interpreter ["asthma"] [] 15 w
           ids 2 w1 w2 Hq Hs eq_refl Hf).
Defined.

(** ** Claims about the parser *)

Section ParserFacts.
Import ET ArticleParser.

Lemma extract_text_missing element xpath default :
  missing element xpath -> extract_text element xpath default = default.
Proof.
  unfold extract_text. intros [-> | ->]; reflexivity.
Qed.

Lemma extract_text_truthy element xpath default :
  str_truthy default = true ->
  str_truthy (extract_text element xpath default) = true.
Proof.
  intros Hd. unfold extract_text.
  destruct (findtext element xpath) as [t |]; [| exact Hd].
  destruct (str_truthy t) eqn:Ht; [exact Ht | exact Hd].
Qed.

Lemma article_data_fully_populated article :
  fully_populated (article_data article).
Proof.
  unfold fully_populated, has_str.
  repeat split; try (eexists; reflexivity).
  eexists. split; [reflexivity |].
  intros k Hk. simpl in Hk.
  destruct Hk as [<- | [<- | [<- | [<- | []]]]]; eexists; reflexivity.
Qed.

Lemma article_data_defaulted article :
  defaulted article (article_data article).
Proof.
  unfold defaulted. repeat split.
  - intros key p Hin Hmiss. simpl in Hin.
    destruct Hin as [Heq | [Heq | [Heq | [Heq | [Heq | []]]]]];
      inversion Heq; subst; simpl;
      rewrite (extract_text_missing article _ NA Hmiss); reflexivity.
  - intros key p Hin Hmiss. simpl in Hin.
    eexists. split; [reflexivity |].
    destruct Hin as [Heq | [Heq | [Heq | [Heq | []]]]];
      inversion Heq; subst; simpl;
      rewrite (extract_text_missing article _ NA Hmiss); reflexivity.
  - intros Hnone. simpl. unfold extract_authors. now rewrite Hnone.
  - intros Hnone. simpl. unfold extract_keywords. now rewrite Hnone.
Qed.

(** C4.  [extract_text] gives the default for a path that is missing, and
    every record of [process_articles] comes from an article node, has all
    its keys, builds its url from its id, and holds the placeholder (or an
    empty list) wherever the node has nothing. *)
Theorem process_articles_fully_populated :
  (forall element xpath default,
      missing element xpath -> extract_text element xpath default = default)
  /\ forall root record,
      In record (process_articles root) ->
      fully_populated record
      /\ exists document article,
          root = Some document
          /\ In article (findall document p_PubmedArticle)
          /\ record = article_data article
          /\ defaulted article record
          /\ exists id,
              dict_get record "id" = Some (FStr id)
              /\ dict_get record "url"
                 = Some (FStr (Config.ARTICLE_VIEW_BASE ++ "/" ++ id)).
Proof.
  split; [exact extract_text_missing |].
  intros [document |] record Hin; simpl in Hin; [| contradiction].
  apply in_map_iff in Hin. destruct Hin as (article & <- & Hin).
  split; [apply article_data_fully_populated |].
  exists document, article.
  split; [reflexivity |]. split; [exact Hin |]. split; [reflexivity |].
  split; [apply article_data_defaulted |].
  eexists. split; reflexivity.
Qed.

Lemma process_articles_fully_populated_witness :
  let record := article_data plain_article in
  In record (process_articles (Some plain_document))
  /\ fully_populated record
  /\ dict_get record "doi" = Some (FStr "N/A").
Proof.
  intros record.
  assert (Hin : In record (process_articles (Some plain_document)))
    by (left; reflexivity).
  split; [exact Hin |].
  split; [exact (proj1 (proj2 process_articles_fully_populated _ _ Hin)) |].
  reflexivity.
Defined.

End ParserFacts.

(** ** Claims about the citation *)

Section CitationFacts.
Import ET ArticleParser.
Context `{Interpreter}.

Lemma string_append_assoc (a b c : string) : (a ++ b) ++ c = a ++ (b ++ c).
Proof.
  induction a as [| ch a IH]; simpl; [reflexivity | now rewrite IH].
Qed.

(** The citation of a parsed record always carries the three optional
    segments: the fields they are guarded by are never empty. *)
Lemma citation_of_parsed_record article :
  exists head,
    generate_citation (article_data article)
    = (((head ++ "(" ++ extract_text article p_Issue NA ++ ")")
        ++ ":" ++ extract_text article p_MedlinePgn NA) ++ ".")
      ++ " doi: " ++ extract_text article p_doi NA.
Proof.
  unfold generate_citation, citation_text, citation_authors.
  cbn [article_data get_or dict_get String.eqb Ascii.eqb Bool.eqb
       first_authors rbind field_get field_get_or field_truthy fmt box py_str].
  rewrite !extract_text_truthy by reflexivity.
  eexists. reflexivity.
Qed.

(** C5.  The article has no issue, no page range and no DOI, and its
    citation shows all three segments, filled with the placeholder. *)
Theorem citation_of_plain_article :
  missing plain_article p_Issue
  /\ missing plain_article p_MedlinePgn
  /\ missing plain_article p_doi
  /\ generate_citation (article_data plain_article)
     = "Smith J. Asthma in adults. Thorax. 2019;12(N/A):N/A. doi: N/A"
  /\ exists w' pub,
      get_publication_details "31452104"
        (world_of (once (ok_response not_json (Ok plain_document))))
      = (Ok [("status", VStr "success"); ("publication", VDict pub)], w')
      /\ dict_get pub "citation"
         = Some (VStr "Smith J. Asthma in adults. Thorax. 2019;12(N/A):N/A. doi: N/A").
Proof.
  split; [left; reflexivity |].
  split; [left; reflexivity |].
  split; [left; reflexivity |].
  split; [vm_compute; reflexivity |].
  do 2 eexists. split; vm_compute; reflexivity.
Qed.

Lemma citation_authors_of_list article authors :
  dict_get article "authors" = Some (FDicts authors) ->
  citation_authors article
  = Ok (if (6 <? List.length authors)%nat
        then (map author_token (firstn 6 authors) ++ ["et al"])%list
        else map author_token (firstn 6 authors)).
Proof.
  intros Hauthors. unfold citation_authors, get_or. rewrite Hauthors.
  reflexivity.
Qed.

(** C6.  For a record with a list of authors, the author tokens of the
    citation are the first six authors as "Lastname Initials", followed by
    the single token "et al" exactly when there are more than six; the
    citation starts with these tokens joined by ", ". *)
Theorem citation_authors_et_al article authors :
  dict_get article "authors" = Some (FDicts authors) ->
  exists author_list,
    citation_authors article = Ok author_list
    /\ (List.length author_list <= 7)%nat
    /\ ((6 < List.length authors)%nat ->
        author_list = (map author_token (firstn 6 authors) ++ ["et al"])%list
        /\ List.length (firstn 6 authors) = 6%nat)
    /\ ((List.length authors <= 6)%nat ->
        author_list = map author_token authors)
    /\ forall j,
        get_or article "journal" (FDict []) = FDict j ->
        exists rest,
          generate_citation article
          = String.concat ", " author_list ++ ". " ++ rest.
Proof.
  intros Hauthors.
  eexists. split; [apply citation_authors_of_list; exact Hauthors |].
  split; [| split; [| split]].
  - pose proof (firstn_le_length 6 authors) as Hlen.
    destruct (6 <? List.length authors)%nat.
    + rewrite length_app, length_map.
      change (List.length ["et al"]) with 1%nat. lia.
    + rewrite length_map. lia.
  - intros Hmore. destruct (Nat.ltb_spec 6 (List.length authors)); [| lia].
    split; [reflexivity |]. rewrite length_firstn. lia.
  - intros Hfew. destruct (Nat.ltb_spec 6 (List.length authors)); [lia |].
    now rewrite firstn_all2.
  - intros j Hj.
    unfold generate_citation, citation_text.
    rewrite (citation_authors_of_list article authors Hauthors), Hj.
    cbn [rbind field_get field_get_or].
    destruct (dict_get j "issue") as [issue |];
      [destruct (str_truthy issue) |];
      (destruct (dict_get j "pages") as [pages |];
         [destruct (str_truthy pages) |]);
      (destruct (dict_get article "doi") as [doi |];
         [destruct (field_truthy doi) |]);
      eexists; rewrite ?string_append_assoc; reflexivity.
Qed.

End CitationFacts.

Lemma citation_authors_et_al_witness :
  let authors :=
    map (fun n => [("lastname", n); ("initials", "A")])
        ["Ames"; "Berg"; "Cole"; "Diaz"; "Eze"; "Fox"; "Gray"; "Hill"] in
  dict_get eight_authors "authors" = Some (FDicts authors)
  /\ (6 < List.length authors)%nat
  /\ exists author_list,
      citation_authors eight_authors = Ok author_list
      /\ author_list
         = ["Ames A"; "Berg A"; "Cole A"; "Diaz A"; "Eze A"; "Fox A"; "et al"].
Proof.
  intros authors.
  assert (Hmore : (6 < List.length authors)%nat) by (simpl; lia).
  split; [reflexivity |]. split; [exact Hmore |].
  destruct (@citation_authors_et_al sample_interpreter eight_authors authors
              eq_refl)
    as (author_list & Hlist & _ & Hsix & _).
  exists author_list. split; [exact Hlist |].
  exact (proj1 (Hsix Hmore)).
Defined.

(** ** Order of strings *)

Lemma ascii_compare_lt_trans a b c :
  Ascii.compare a b = Lt -> Ascii.compare b c = Lt -> Ascii.compare a c = Lt.
Proof.
  unfold Ascii.compare. rewrite !N.compare_lt_iff. apply N.lt_trans.
Qed.

Lemma string_compare_lt_trans : forall a b c,
  String.compare a b = Lt -> String.compare b c = Lt ->
  String.compare a c = Lt.
Proof.
  induction a as [| x a IH]; intros [| y b] [| z c]; simpl;
    try discriminate; try reflexivity.
  destruct (Ascii.compare x y) eqn:Exy; try discriminate;
    destruct (Ascii.compare y z) eqn:Eyz; try discriminate; intros Hab Hbc.
  - apply Ascii.compare_eq_iff in Exy, Eyz. subst.
    unfold Ascii.compare at 1. rewrite N.compare_refl. now apply IH with b.
  - apply Ascii.compare_eq_iff in Exy. subst. now rewrite Eyz.
  - apply Ascii.compare_eq_iff in Eyz. subst. now rewrite Exy.
  - now rewrite (ascii_compare_lt_trans x y z).
Qed.

Lemma string_ltb_asym a b :
  String.ltb a b = true -> String.ltb b a = false.
Proof.
  unfold String.ltb. rewrite (String.compare_antisym b a).
  destruct (String.compare a b); simpl; congruence.
Qed.

Lemma string_ltb_total a b :
  String.ltb a b = false -> a <> b -> String.ltb b a = true.
Proof.
  unfold String.ltb. rewrite (String.compare_antisym b a).
  destruct (String.compare a b) eqn:E; simpl; try congruence.
  apply String.compare_eq_iff in E. congruence.
Qed.

Lemma string_ltb_negtrans a b c :
  String.ltb a b = false -> String.ltb b c = false -> String.ltb a c = false.
Proof.
  intros Hab Hbc.
  destruct (String.ltb a c) eqn:Hac; [| reflexivity].
  destruct (string_dec a b) as [-> | Hne]; [congruence |].
  pose proof (string_ltb_total a b Hab Hne) as Hba.
  unfold String.ltb in *.
  destruct (String.compare b a) eqn:Eba; try discriminate.
  destruct (String.compare a c) eqn:Eac; try discriminate.
  now rewrite (string_compare_lt_trans b a c Eba Eac) in Hbc.
Qed.

(** ** The stable descending sort *)

Section SortFacts.
Context {A K : Type} (key : A -> K) (lt : K -> K -> bool).
Hypothesis lt_asym : forall a b, lt a b = true -> lt b a = false.
Hypothesis lt_negtrans :
  forall a b c, lt a b = false -> lt b c = false -> lt a c = false.

(** [R] is the order of the items before the sort. *)
Variable R : A -> A -> Prop.

(** [a] may stand before [b]: its key is not smaller, and when the keys
    do not decide, [a] came first. *)
Definition precedes (a b : A) : Prop :=
  lt (key a) (key b) = false /\ (lt (key b) (key a) = true \/ R a b).

Lemma insert_desc_perm x l : Permutation (insert_desc key lt x l) (x :: l).
Proof.
  induction l as [| y l IH]; simpl; [reflexivity |].
  destruct (lt (key x) (key y)); [| reflexivity].
  rewrite IH. apply perm_swap.
Qed.

Lemma sorted_reverse_perm l : Permutation (sorted_reverse key lt l) l.
Proof.
  induction l as [| x l IH]; simpl; [reflexivity |].
  rewrite insert_desc_perm. now constructor.
Qed.

Lemma insert_desc_sorted x l :
  StronglySorted precedes l ->
  Forall (R x) l ->
  StronglySorted precedes (insert_desc key lt x l).
Proof.
  induction l as [| y l IH]; intros Hsorted Hfirst; simpl.
  - repeat constructor.
  - inversion Hsorted as [| ? ? Hl Hy]; subst.
    inversion Hfirst as [| ? ? Hxy Hxl]; subst.
    destruct (lt (key x) (key y)) eqn:Hlt.
    + constructor; [now apply IH |].
      rewrite (insert_desc_perm x l).
      constructor; [| exact Hy].
      split; [now apply lt_asym | now left].
    + constructor; [exact Hsorted |].
      constructor; [split; [exact Hlt | now right] |].
      rewrite Forall_forall in *. intros z Hz.
      split; [| right; now apply Hxl].
      apply lt_negtrans with (key y); [exact Hlt | apply (Hy z Hz)].
Qed.

Lemma sorted_reverse_sorted l :
  StronglySorted R l -> StronglySorted precedes (sorted_reverse key lt l).
Proof.
  induction l as [| x l IH]; intros Hsorted; simpl; [constructor |].
  inversion Hsorted as [| ? ? Hl Hx]; subst.
  apply insert_desc_sorted; [now apply IH |].
  now rewrite (sorted_reverse_perm l).
Qed.

End SortFacts.

Lemma StronglySorted_impl {A} (P Q : A -> A -> Prop) l :
  (forall a b, In a l -> In b l -> P a b -> Q a b) ->
  StronglySorted P l -> StronglySorted Q l.
Proof.
  induction l as [| x l IH]; intros Himp Hsorted; [constructor |].
  inversion Hsorted as [| ? ? Hl Hx]; subst.
  constructor.
  - apply IH; [| exact Hl]. intros a b Ha Hb. apply Himp; now right.
  - rewrite Forall_forall in *. intros y Hy.
    apply Himp; [now left | now right | now apply Hx].
Qed.

(** ** Dictionaries *)

Section DictFacts.
Context {V : Type}.
Implicit Types (d : Dict V) (k : string) (v : V).

Lemma dict_get_set_same d k v : dict_get (dict_set d k v) k = Some v.
Proof.
  induction d as [| [k' v'] d IH]; simpl.
  - now rewrite String.eqb_refl.
  - destruct (String.eqb_spec k' k) as [-> | Hne]; simpl.
    + now rewrite String.eqb_refl.
    + destruct (String.eqb_spec k' k); [contradiction | exact IH].
Qed.

Lemma dict_get_set_other d k v k' :
  k <> k' -> dict_get (dict_set d k v) k' = dict_get d k'.
Proof.
  intros Hne. induction d as [| [k0 v0] d IH]; simpl.
  - destruct (String.eqb_spec k k'); [contradiction | reflexivity].
  - destruct (String.eqb_spec k0 k) as [-> | Hk]; simpl.
    + destruct (String.eqb_spec k k'); [contradiction | reflexivity].
    + now rewrite IH.
Qed.

Lemma dict_get_none d k : dict_get d k = None <-> ~ In k (keys d).
Proof.
  induction d as [| [k' v'] d IH]; simpl; [tauto |].
  destruct (String.eqb_spec k' k) as [-> | Hne].
  - split; [discriminate | intros Hn; exfalso; apply Hn; now left].
  - rewrite IH. tauto.
Qed.

Lemma dict_set_present d k v v0 :
  dict_get d k = Some v0 -> keys (dict_set d k v) = keys d.
Proof.
  induction d as [| [k' v'] d IH]; simpl; [discriminate |].
  destruct (String.eqb_spec k' k) as [-> | Hne]; simpl; [reflexivity |].
  intros Hget. now rewrite IH.
Qed.

Lemma dict_set_absent d k v :
  dict_get d k = None -> dict_set d k v = (d ++ [(k, v)])%list.
Proof.
  induction d as [| [k' v'] d IH]; simpl; [reflexivity |].
  destruct (String.eqb_spec k' k) as [-> | Hne]; [discriminate |].
  intros Hget. now rewrite IH.
Qed.

Lemma dict_get_In d k v : dict_get d k = Some v -> In (k, v) d.
Proof.
  induction d as [| [k' v'] d IH]; simpl; [discriminate |].
  destruct (String.eqb_spec k' k) as [-> | Hne].
  - intros [= ->]. now left.
  - intros Hget. right. now apply IH.
Qed.

Lemma In_dict_get d k v :
  NoDup (keys d) -> In (k, v) d -> dict_get d k = Some v.
Proof.
  induction d as [| [k' v'] d IH]; simpl; [contradiction |].
  intros Hnodup [[= -> ->] | Hin].
  - now rewrite String.eqb_refl.
  - inversion Hnodup as [| ? ? Hnotin Hrest]; subst.
    destruct (String.eqb_spec k' k) as [-> | Hne].
    + exfalso. apply Hnotin. change k with (fst (k, v)). now apply in_map.
    + now apply IH.
Qed.

End DictFacts.

(** ** Counting *)

Lemma index_of_app n names l :
  In n names -> index_of n (names ++ l) = index_of n names.
Proof.
  induction names as [| y names IH]; simpl; [contradiction |].
  destruct (String.eqb_spec y n) as [-> | Hne]; [reflexivity |].
  intros [Heq | Hin]; [contradiction |]. now rewrite IH.
Qed.

Lemma index_of_last n names :
  ~ In n names -> index_of n (names ++ [n]) = List.length names.
Proof.
  induction names as [| y names IH]; simpl; intros Hnotin.
  - now rewrite String.eqb_refl.
  - destruct (String.eqb_spec y n) as [-> | Hne]; [tauto |].
    rewrite IH; tauto.
Qed.

Lemma index_of_bound n names :
  In n names -> (index_of n names < List.length names)%nat.
Proof.
  induction names as [| y names IH]; simpl; [contradiction |].
  destruct (String.eqb_spec y n) as [-> | Hne]; [lia |].
  intros [Heq | Hin]; [contradiction |]. apply IH in Hin. lia.
Qed.

Lemma occurrences_snoc n names x :
  occurrences n (names ++ [x])
  = occurrences n names + (if string_dec x n then 1 else 0).
Proof.
  unfold occurrences. rewrite count_occ_app. simpl.
  destruct (string_dec x n); lia.
Qed.

Lemma occurrences_absent n names : ~ In n names -> occurrences n names = 0.
Proof.
  intros Hnotin. unfold occurrences.
  now rewrite (proj1 (count_occ_not_In string_dec names n) Hnotin).
Qed.

Lemma StronglySorted_snoc {A} (P : A -> A -> Prop) l x :
  StronglySorted P l -> Forall (fun a => P a x) l ->
  StronglySorted P (l ++ [x]).
Proof.
  induction l as [| y l IH]; intros Hsorted Hall; simpl.
  - repeat constructor.
  - inversion Hsorted as [| ? ? Hl Hy]; subst.
    inversion Hall as [| ? ? Hyx Hlx]; subst.
    constructor; [now apply IH |].
    apply Forall_app. split; [exact Hy | now constructor].
Qed.

Lemma counts_snoc names x :
  counts (names ++ [x]) = count_one (counts names) x.
Proof. unfold counts. now rewrite fold_left_app. Qed.

(** What the counting dictionary holds, and in which order. *)
Lemma counts_spec names :
  (forall n, In n names -> dict_get (counts names) n = Some (occurrences n names))
  /\ (forall n, ~ In n names -> dict_get (counts names) n = None)
  /\ StronglySorted (met_before names) (keys (counts names)).
Proof.
  induction names as [| x names (Hin & Hout & Hsorted)] using rev_ind.
  - repeat split; try contradiction; constructor.
  - rewrite counts_snoc. unfold count_one, get_or.
    assert (Hkeys : forall k, In k (keys (counts names)) -> In k names).
    { intros k Hk. destruct (in_dec string_dec k names) as [| Hno]; [assumption |].
      apply Hout in Hno. apply dict_get_none in Hno. contradiction. }
    split; [| split].
    + intros n Hn. rewrite occurrences_snoc.
      destruct (string_dec x n) as [-> | Hne].
      * rewrite dict_get_set_same. f_equal.
        destruct (in_dec string_dec n names) as [Hyes | Hno].
        -- now rewrite (Hin n Hyes).
        -- rewrite (Hout n Hno), (occurrences_absent n names Hno). reflexivity.
      * rewrite dict_get_set_other by exact Hne.
        apply in_app_or in Hn. destruct Hn as [Hn | [Hn | []]]; [| contradiction].
        rewrite (Hin n Hn). f_equal. lia.
    + intros n Hn.
      assert (x <> n) by (intros ->; apply Hn, in_or_app; right; now left).
      rewrite dict_get_set_other by assumption.
      apply Hout. intros Hyes. apply Hn, in_or_app. now left.
    + destruct (in_dec string_dec x names) as [Hyes | Hno].
      * rewrite (Hin x Hyes).
        rewrite (dict_set_present _ _ _ _ (Hin x Hyes)).
        apply (StronglySorted_impl (met_before names)); [| exact Hsorted].
        intros a b Ha Hb. unfold met_before.
        now rewrite !index_of_app by auto.
      * rewrite (Hout x Hno), (dict_set_absent _ _ _ (Hout x Hno)).
        unfold keys. rewrite map_app. simpl.
        apply StronglySorted_snoc.
        -- apply (StronglySorted_impl (met_before names)); [| exact Hsorted].
           intros a b Ha Hb. unfold met_before.
           now rewrite !index_of_app by auto.
        -- apply Forall_forall. intros k Hk. unfold met_before.
           rewrite index_of_app by auto. rewrite index_of_last by exact Hno.
           apply index_of_bound. auto.
Qed.

Lemma met_before_irrefl names a : ~ met_before names a a.
Proof. unfold met_before. lia. Qed.

Lemma StronglySorted_NoDup {A} (P : A -> A -> Prop) l :
  (forall a, ~ P a a) -> StronglySorted P l -> NoDup l.
Proof.
  intros Hirr. induction 1 as [| x l Hl IH Hx]; constructor; [| exact IH].
  intros Hin. rewrite Forall_forall in Hx. exact (Hirr x (Hx x Hin)).
Qed.

Lemma counts_NoDup names : NoDup (keys (counts names)).
Proof.
  apply (StronglySorted_NoDup (met_before names)).
  - apply met_before_irrefl.
  - apply counts_spec.
Qed.

Lemma counts_In names n c :
  In (n, c) (counts names) <-> In n names /\ c = occurrences n names.
Proof.
  destruct (counts_spec names) as (Hin & Hout & _).
  split.
  - intros Hpair. apply (In_dict_get _ _ _ (counts_NoDup names)) in Hpair.
    destruct (in_dec string_dec n names) as [Hyes | Hno].
    + rewrite (Hin n Hyes) in Hpair. split; [exact Hyes | congruence].
    + rewrite (Hout n Hno) in Hpair. discriminate.
  - intros [Hyes ->]. apply dict_get_In. now apply Hin.
Qed.

Lemma StronglySorted_map {A B} (f : A -> B) (P : B -> B -> Prop) l :
  StronglySorted P (map f l) ->
  StronglySorted (fun a b => P (f a) (f b)) l.
Proof.
  induction l as [| x l IH]; simpl; intros Hsorted; [constructor |].
  inversion Hsorted as [| ? ? Hl Hx]; subst.
  constructor; [now apply IH |].
  rewrite Forall_forall in *. intros y Hy. apply Hx. now apply in_map.
Qed.

(** ** Claims about the statistics *)

Lemma tally_counts articles : forall j0 y0 j y,
  tally articles (j0, y0) = Ok (j, y) ->
  j = fold_left count_one (journal_names articles) j0
  /\ y = fold_left count_one (observed_years articles) y0.
Proof.
  induction articles as [| a rest IH]; intros j0 y0 j y Htally.
  - simpl in Htally. injection Htally as <- <-. now split.
  - cbn [tally] in Htally. unfold tally_article in Htally.
    unfold journal_names, observed_years. cbn [flat_map].
    rewrite !fold_left_app.
    fold (journal_names rest). fold (observed_years rest).
    unfold counted_key.
    destruct (get_or a "journal" (FDict [])) as [s | d | l | l];
      cbn [field_get rbind no_attribute] in Htally; try discriminate.
    destruct (dict_get d "name") as [n |];
      [destruct (str_truthy n && negb (n =? "N/A")%string) |];
      (destruct (dict_get a "publication_date") as [[yr | ? | ? | ?] |];
       [destruct (str_truthy yr && negb (yr =? "N/A")%string)
       | match type of Htally with
         | context [field_truthy ?f] => destruct (field_truthy f)
         end ..
       |]);
      cbn [rbind] in Htally; try discriminate;
      apply IH in Htally; exact Htally.
Qed.

(** The listings of a run are those of the document that the run fetched:
    [root] is what the fetch of the first ten identifiers of the search
    returned. *)
Lemma get_article_statistics_listing `{Interpreter}
    researcher w ids total w1 recent root w2 env w' :
  retrieve_article_ids (researcher ++ "[Author]") 100 w
  = (Ok (ids, total), w1) ->
  slice_to 10 ids = Ok recent ->
  fetch_article_metadata recent w1 = (Ok root, w2) ->
  get_article_statistics researcher w = (Ok env, w') ->
  dict_get env "top_journals" <> None
  \/ dict_get env "publication_years" <> None ->
  let sample := ArticleParser.process_articles root in
  dict_get env "top_journals"
  = Some (VList (map (counted "name")
                     (top_journals (counts (journal_names sample)))))
  /\ dict_get env "publication_years"
     = Some (VList (map (counted "year")
                        (publication_years (counts (observed_years sample))))).
Proof.
  intros Hsearch Hslice Hfetch.
  unfold get_article_statistics, try_except, bind, ret, lift.
  destruct (negb (str_truthy researcher)
            || negb (str_truthy (strip researcher))).
  { intros [= <- <-] [Hno | Hno]; now contradiction Hno. }
  rewrite Hsearch.
  destruct (truthy ids).
  2: { intros [= <- <-] [Hno | Hno]; now contradiction Hno. }
  rewrite Hslice, Hfetch.
  destruct (tally (ArticleParser.process_articles root) ([], []))
    as [[journals years] | e] eqn:Htally.
  2: { intros [= <- <-] [Hno | Hno]; now contradiction Hno. }
  apply tally_counts in Htally. destruct Htally as [-> ->].
  intros [= <- <-] _. split; reflexivity.
Qed.

Lemma journal_names_counted sample :
  Forall (fun n => n <> "" /\ n <> "N/A") (journal_names sample).
Proof.
  unfold journal_names. apply Forall_flat_map. apply Forall_forall.
  intros a _.
  destruct (get_or a "journal" (FDict [])) as [s | d | l | l];
    try constructor.
  destruct (dict_get d "name") as [n |]; [| constructor].
  unfold counted_key, str_truthy.
  destruct (String.eqb_spec n ""); [constructor |].
  destruct (String.eqb_spec n "N/A"); [constructor |].
  repeat constructor; assumption.
Qed.

Lemma top_ranking names :
  ranking names (sorted_reverse snd Z.ltb (counts names)).
Proof.
  split.
  - apply (StronglySorted_impl
             (precedes snd Z.ltb
                (fun a b => met_before names (fst a) (fst b)))).
    + intros a b _ _ [Hge [Hgt | Hmet]]; unfold ranks_before.
      * left. now apply Z.ltb_lt.
      * apply Z.ltb_ge in Hge.
        destruct (Z.eq_dec (snd a) (snd b)) as [Heq | Hne];
          [right; now split | left; lia].
    + apply sorted_reverse_sorted.
      * intros x y Hxy. apply Z.ltb_lt in Hxy. apply Z.ltb_ge. lia.
      * intros x y z Hxy Hyz. apply Z.ltb_ge in Hxy, Hyz. apply Z.ltb_ge. lia.
      * apply StronglySorted_map. apply counts_spec.
  - intros n c. rewrite <- counts_In.
    split; apply Permutation_in;
      [| symmetry]; apply sorted_reverse_perm.
Qed.

(** Two lists with the same members that are strongly sorted by an
    asymmetric relation are the same list. *)
Lemma StronglySorted_unique {A} (R : A -> A -> Prop) (l1 : list A) :
  forall l2,
    (forall a b, R a b -> R b a -> False) ->
    StronglySorted R l1 -> StronglySorted R l2 ->
    (forall x, In x l1 <-> In x l2) ->
    l1 = l2.
Proof.
  induction l1 as [| x1 t1 IH]; intros [| x2 t2] Hasym H1 H2 Hmem.
  - reflexivity.
  - exfalso. apply (Hmem x2). now left.
  - exfalso. apply (Hmem x1). now left.
  - inversion H1 as [| ? ? Ht1 Hx1]; inversion H2 as [| ? ? Ht2 Hx2]; subst.
    rewrite Forall_forall in Hx1, Hx2.
    assert (Heq : x1 = x2).
    { destruct (proj1 (Hmem x1) (or_introl eq_refl)) as [E | E];
        [now symmetry |].
      destruct (proj2 (Hmem x2) (or_introl eq_refl)) as [E' | E'];
        [exact E' |].
      exfalso. apply (Hasym x1 x2); [now apply Hx1 | now apply Hx2]. }
    subst x2. f_equal. apply IH; try assumption.
    intros x. split; intros Hin.
    + destruct (proj1 (Hmem x) (or_intror Hin)) as [E | E]; [| exact E].
      subst x. exfalso. apply (Hasym x1 x1); now apply Hx1.
    + destruct (proj2 (Hmem x) (or_intror Hin)) as [E | E]; [| exact E].
      subst x. exfalso. apply (Hasym x1 x1); now apply Hx2.
Qed.

(** A sample has one ranking. *)
Lemma ranking_unique names l1 l2 :
  ranking names l1 -> ranking names l2 -> l1 = l2.
Proof.
  intros [Hs1 Hm1] [Hs2 Hm2].
  apply (StronglySorted_unique (ranks_before names)); try assumption.
  - unfold ranks_before. intros a b [Hab | [Hab Hi]] [Hba | [Hba Hj]]; lia.
  - intros [n c]. now rewrite Hm1, Hm2.
Qed.

(** C7.  The [top_journals] of a statistics result are the first five
    entries of the ranking of the journals of the sample, that is of the
    records of the document that the run fetched for the first ten
    identifiers of the search: by descending number of publications, and
    among journals with as many publications in the order in which the names
    were first met; names are compared as strings, and empty or placeholder
    names are not counted.  The sample has no other ranking, so it
    determines the list. *)
Theorem top_journals_ranked `{Interpreter}
    researcher w ids total w1 recent root w2 env w' tops :
  retrieve_article_ids (researcher ++ "[Author]") 100 w
  = (Ok (ids, total), w1) ->
  slice_to 10 ids = Ok recent ->
  fetch_article_metadata recent w1 = (Ok root, w2) ->
  get_article_statistics researcher w = (Ok env, w') ->
  dict_get env "top_journals" = Some tops ->
  exists ranked,
    let names := journal_names (ArticleParser.process_articles root) in
    ranking names ranked
    /\ (forall other, ranking names other -> other = ranked)
    /\ tops = VList (map (counted "name") (firstn 5 ranked))
    /\ (List.length (firstn 5 ranked) <= 5)%nat
    /\ Forall (fun n => n <> "" /\ n <> "N/A") names.
Proof.
  intros Hsearch Hslice Hfetch Hrun Htops.
  destruct (get_article_statistics_listing researcher w ids total w1 recent
              root w2 env w' Hsearch Hslice Hfetch Hrun) as [Hj _].
  { left. congruence. }
  eexists. cbn zeta.
  split; [apply top_ranking |].
  split; [| split; [| split]].
  - intros other Hother. apply (ranking_unique _ _ _ Hother).
    apply top_ranking.
  - rewrite Hj in Htops. injection Htops as <-. reflexivity.
  - apply firstn_le_length.
  - apply journal_names_counted.
Qed.

Lemma NoDup_StronglySorted_neq {A B} (f : A -> B) l :
  NoDup (map f l) -> StronglySorted (fun a b => f a <> f b) l.
Proof.
  induction l as [| x l IH]; simpl; intros Hnodup; [constructor |].
  inversion Hnodup as [| ? ? Hnotin Hrest]; subst.
  constructor; [now apply IH |].
  apply Forall_forall. intros y Hy Heq. apply Hnotin.
  rewrite Heq. now apply in_map.
Qed.

Lemma years_descending names :
  StronglySorted later_first (sorted_reverse fst String.ltb (counts names)).
Proof.
  apply (StronglySorted_impl
           (precedes fst String.ltb (fun a b => fst a <> fst b))).
  - intros a b _ _ [Hge [Hgt | Hne]]; unfold later_first.
    + exact Hgt.
    + now apply string_ltb_total.
  - apply sorted_reverse_sorted.
    + apply string_ltb_asym.
    + apply string_ltb_negtrans.
    + apply NoDup_StronglySorted_neq. apply counts_NoDup.
Qed.

(** C8.  The [publication_years] of a statistics result list every year
    of the sample (the records of the document that the run fetched for the
    first ten identifiers of the search) once, with its number of
    publications, in descending order of the year strings; no other list
    does, so the sample determines the listing.  A sample whose years are
    2021, 2019 and 2023 is listed as 2023, 2021, 2019. *)
Theorem publication_years_descending `{Interpreter}
    researcher w ids total w1 recent root w2 env w' listed :
  retrieve_article_ids (researcher ++ "[Author]") 100 w
  = (Ok (ids, total), w1) ->
  slice_to 10 ids = Ok recent ->
  fetch_article_metadata recent w1 = (Ok root, w2) ->
  get_article_statistics researcher w = (Ok env, w') ->
  dict_get env "publication_years" = Some listed ->
  exists ordered,
    let observed := observed_years (ArticleParser.process_articles root) in
    listed = VList (map (counted "year") ordered)
    /\ StronglySorted later_first ordered
    /\ (forall y c,
          In (y, c) ordered <-> In y observed /\ c = occurrences y observed)
    /\ (forall other,
          StronglySorted later_first other ->
          (forall y c,
             In (y, c) other <-> In y observed /\ c = occurrences y observed) ->
          other = ordered)
    /\ (observed = ["2021"; "2019"; "2023"] ->
        ordered = [("2023", 1); ("2021", 1); ("2019", 1)]
        /\ map fst ordered = ["2023"; "2021"; "2019"]).
Proof.
  intros Hsearch Hslice Hfetch Hrun Hlisted.
  destruct (get_article_statistics_listing researcher w ids total w1 recent
              root w2 env w' Hsearch Hslice Hfetch Hrun) as [_ Hy].
  { right. congruence. }
  eexists. cbn zeta.
  assert (Hmem : forall y c,
             In (y, c)
                (sorted_reverse fst String.ltb
                   (counts (observed_years
                              (ArticleParser.process_articles root))))
             <-> In y (observed_years (ArticleParser.process_articles root))
                 /\ c = occurrences y
                          (observed_years
                             (ArticleParser.process_articles root))).
  { intros y c. rewrite <- counts_In.
    split; apply Permutation_in; [| symmetry]; apply sorted_reverse_perm. }
  split; [| split; [| split; [| split]]].
  - rewrite Hy in Hlisted. injection Hlisted as <-. reflexivity.
  - apply years_descending.
  - exact Hmem.
  - intros other Hsorted Hother.
    apply (StronglySorted_unique later_first); try assumption.
    + unfold later_first. intros a b Hab Hba.
      apply string_ltb_asym in Hab. congruence.
    + apply years_descending.
    + intros [y c]. now rewrite Hother, Hmem.
  - intros ->. split; reflexivity.
Qed.

Lemma top_journals_ranked_witness :
  let w := world_of (archive eight_articles) in
  let ids := VList (map VStr ["1"; "2"; "3"; "4"; "5"; "6"; "7"; "8"; "9";
                              "10"; "11"; "12"]) in
  let recent := VList (map VStr ["1"; "2"; "3"; "4"; "5"; "6"; "7"; "8"; "9";
                                 "10"]) in
  let w1 := snd (@retrieve_article_ids sample_interpreter "Smith J[Author]"
                   100 w) in
  let w2 := snd (fetch_article_metadata recent w1) in
  let tops :=
    VList (map (counted "name")
               [("Lancet", 2); ("Thorax", 2); ("Chest", 1); ("Gut", 1);
                ("BMJ", 1)]) in
  @retrieve_article_ids sample_interpreter ("Smith J" ++ "[Author]") 100 w
  = (Ok (ids, 340), w1)
  /\ slice_to 10 ids = Ok recent
  /\ fetch_article_metadata recent w1 = (Ok (Some eight_articles), w2)
  /\ journal_names (ArticleParser.process_articles (Some eight_articles))
     = ["Lancet"; "Thorax"; "Chest"; "Thorax"; "Gut"; "Lancet"; "BMJ"; "JAMA"]
  /\ exists env,
      @get_article_statistics sample_interpreter "Smith J" w = (Ok env, w2)
      /\ dict_get env "top_journals" = Some tops
      /\ exists ranked,
          let names :=
            journal_names
              (ArticleParser.process_articles (Some eight_articles)) in
          ranking names ranked
          /\ (forall other, ranking names other -> other = ranked)
          /\ tops = VList (map (counted "name") (firstn 5 ranked))
          /\ (List.length (firstn 5 ranked) <= 5)%nat
          /\ Forall (fun n => n <> "" /\ n <> "N/A") names.
Proof.
  intros w ids recent w1 w2 tops.
  assert (Hsearch : @retrieve_article_ids sample_interpreter
                      ("Smith J" ++ "[Author]") 100 w
                    = (Ok (ids, 340), w1))
    by (vm_compute; reflexivity).
  assert (Hslice : slice_to 10 ids = Ok recent) by reflexivity.
  assert (Hfetch : fetch_article_metadata recent w1
                   = (Ok (Some eight_articles), w2))
    by (vm_compute; reflexivity).
  assert (Hrun : exists env,
             @get_article_statistics sample_interpreter "Smith J" w
             = (Ok env, w2)
             /\ dict_get env "top_journals" = Some tops)
    by (eexists; split; [vm_compute; reflexivity | reflexivity]).
  destruct Hrun as (env & Hrun & Htops).
  split; [exact Hsearch |]. split; [exact Hslice |]. split; [exact Hfetch |].
  split; [reflexivity |].
  exists env. split; [exact Hrun |]. split; [exact Htops |].
  exact (@top_journals_ranked sample_interpreter "Smith J" w ids 340 w1
           recent (Some eight_articles) w2 env w2 tops
           Hsearch Hslice Hfetch Hrun Htops).
Defined.

Lemma publication_years_descending_witness :
  let w := world_of (archive three_articles) in
  let ids := VList (map VStr ["1"; "2"; "3"; "4"; "5"; "6"; "7"; "8"; "9";
                              "10"; "11"; "12"]) in
  let recent := VList (map VStr ["1"; "2"; "3"; "4"; "5"; "6"; "7"; "8"; "9";
                                 "10"]) in
  let w1 := snd (@retrieve_article_ids sample_interpreter "Smith J[Author]"
                   100 w) in
  let w2 := snd (fetch_article_metadata recent w1) in
  let listed :=
    VList (map (counted "year") [("2023", 1); ("2021", 1); ("2019", 1)]) in
  @retrieve_article_ids sample_interpreter ("Smith J" ++ "[Author]") 100 w
  = (Ok (ids, 340), w1)
  /\ slice_to 10 ids = Ok recent
  /\ fetch_article_metadata recent w1 = (Ok (Some three_articles), w2)
  /\ observed_years (ArticleParser.process_articles (Some three_articles))
     = ["2021"; "2019"; "2023"]
  /\ exists env,
      @get_article_statistics sample_interpreter "Smith J" w = (Ok env, w2)
      /\ dict_get env "publication_years" = Some listed
      /\ exists ordered,
          let observed :=
            observed_years
              (ArticleParser.process_articles (Some three_articles)) in
          listed = VList (map (counted "year") ordered)
          /\ StronglySorted later_first ordered
          /\ (forall y c,
                In (y, c) ordered
                <-> In y observed /\ c = occurrences y observed)
          /\ (forall other,
                StronglySorted later_first other ->
                (forall y c,
                   In (y, c) other
                   <-> In y observed /\ c = occurrences y observed) ->
                other = ordered)
          /\ (observed = ["2021"; "2019"; "2023"] ->
              ordered = [("2023", 1); ("2021", 1); ("2019", 1)]
              /\ map fst ordered = ["2023"; "2021"; "2019"]).
Proof.
  intros w ids recent w1 w2 listed.
  assert (Hsearch : @retrieve_article_ids sample_interpreter
                      ("Smith J" ++ "[Author]") 100 w
                    = (Ok (ids, 340), w1))
    by (vm_compute; reflexivity).
  assert (Hslice : slice_to 10 ids = Ok recent) by reflexivity.
  assert (Hfetch : fetch_article_metadata recent w1
                   = (Ok (Some three_articles), w2))
    by (vm_compute; reflexivity).
  assert (Hrun : exists env,
             @get_article_statistics sample_interpreter "Smith J" w
             = (Ok env, w2)
             /\ dict_get env "publication_years" = Some listed)
    by (eexists; split; [vm_compute; reflexivity | reflexivity]).
  destruct Hrun as (env & Hrun & Hlisted).
  split; [exact Hsearch |]. split; [exact Hslice |]. split; [exact Hfetch |].
  split; [reflexivity |].
  exists env. split; [exact Hrun |]. split; [exact Hlisted |].
  exact (@publication_years_descending sample_interpreter "Smith J" w ids 340
           w1 recent (Some three_articles) w2 env w2 listed
           Hsearch Hslice Hfetch Hrun Hlisted).
Defined.

(** * Further properties *)

(** ** Transport: bounds that hold for every service *)

Section TransportBounds.
Variables (endpoint : string) (params : Dict value).


Lemma slept_retried n w :
  slept (retried endpoint params n w)
  = slept w + Z.of_nat n * Config.RETRY_DELAY.
Proof.
  revert w. induction n as [| n IH]; intros w.
  - simpl. lia.
  - cbn [retried]. rewrite IH. cbn [slept rested issued]. lia.
Qed.

Lemma transport_retried n w :
  transport (retried endpoint params n w) = transport w
  /\ clock (retried endpoint params n w) = clock w
  /\ ticks (retried endpoint params n w) = ticks w.
Proof.
  revert w. induction n as [| n IH]; intros w; [now repeat split |].
  cbn [retried]. destruct (IH (rested Config.RETRY_DELAY (issued (request_of endpoint params) w)))
    as (Ht & Hc & Hk).
  now rewrite Ht, Hc, Hk.
Qed.

(** However the service behaves, the loop ends after at least one and at
    most [retries - attempt] requests, with a response or an exception. *)
Lemma request_loop_bounded retries m : forall attempt w,
  attempt < retries ->
  Z.to_nat (retries - attempt) = m ->
  exists k res,
    request_loop (Config.NCBI_API_BASE ++ "/" ++ endpoint) params retries attempt w
    = (res, issued (request_of endpoint params) (retried endpoint params k w))
    /\ Z.of_nat k < retries - attempt
    /\ res <> Ok None.
Proof.
  induction m as [| m IH]; intros attempt w Hlt Hm; [lia |].
  rewrite request_loop_body.
  destruct (Z.ltb_spec attempt retries); [| lia].
  rewrite attempt_request_outcome.
  destruct (attempt_outcome endpoint params w 0) as [response | e].
  - exists O, (Ok (Some response)). repeat split; [lia | discriminate].
  - destruct (is_request_exception e).
    + destruct (Z.eqb_spec (attempt + 1) retries) as [Heq | Hne].
      * exists O, (Raise e). repeat split; [lia | discriminate].
      * destruct (IH (attempt + 1) (rested Config.RETRY_DELAY (issued (request_of endpoint params) w)))
          as (k & res & Hrun & Hk & Hres); [lia | lia |].
        exists (S k), res. rewrite Hrun. repeat split; [lia | exact Hres].
    + exists O, (Raise e). repeat split; [lia | discriminate].
Qed.

Lemma make_api_request_world retries w :
  0 < retries ->
  exists k res,
    make_api_request endpoint params retries w
    = (res, issued (request_of endpoint params) (retried endpoint params k w))
    /\ Z.of_nat k < retries
    /\ res <> Ok None.
Proof.
  intros Hpos. unfold make_api_request.
  destruct (request_loop_bounded retries (Z.to_nat retries) 0 w)
    as (k & res & Hrun & Hk & Hres); [lia | f_equal; lia |].
  exists k, res. repeat split; [exact Hrun | lia | exact Hres].
Qed.

End TransportBounds.

(** X1.  With a positive budget [make_api_request] never returns [None]:
    it returns a response or raises.  It issues between one and [retries]
    requests, all of them the same GET, and pauses [RETRY_DELAY] between
    two attempts only, never after the last one. *)
Theorem make_api_request_bounded endpoint params retries w :
  0 < retries ->
  exists n res w',
    make_api_request endpoint params retries w = (res, w')
    /\ res <> Ok None
    /\ (1 <= n)%nat /\ Z.of_nat n <= retries
    /\ calls w' = (calls w ++ repeat (request_of endpoint params) n)%list
    /\ slept w' = slept w + (Z.of_nat n - 1) * Config.RETRY_DELAY.
Proof.
  intros Hpos.
  destruct (make_api_request_world endpoint params retries w Hpos)
    as (k & res & Hrun & Hk & Hres).
  exists (S k), res. eexists. split; [exact Hrun |].
  split; [exact Hres |]. split; [lia |]. split; [lia |].
  split; [apply calls_issued_retried |].
  cbn [slept issued]. rewrite slept_retried. lia.
Qed.

Lemma make_api_request_bounded_witness :
  0 < 3
  /\ exists n res w',
      make_api_request "esearch.fcgi" [] 3
        (world_of (flaky 1 (ok_response not_json not_xml))) = (res, w')
      /\ res <> Ok None
      /\ (1 <= n)%nat /\ Z.of_nat n <= 3
      /\ calls w' = (repeat (request_of "esearch.fcgi" []) n)%list
      /\ slept w' = 0 + (Z.of_nat n - 1) * Config.RETRY_DELAY.
Proof.
  split; [lia |].
  apply (make_api_request_bounded "esearch.fcgi" [] 3
           (world_of (flaky 1 (ok_response not_json not_xml)))).
  lia.
Defined.

Lemma make_api_request_other_exception_witness :
  0 < 3
  /\ attempt_outcome "esearch.fcgi" [] (world_of broken) 0
     = Raise (Exn OtherError "unexpected failure")
  /\ is_request_exception (Exn OtherError "unexpected failure") = false
  /\ make_api_request "esearch.fcgi" [] 3 (world_of broken)
     = (Raise (Exn OtherError "unexpected failure"),
        issued (request_of "esearch.fcgi" []) (world_of broken)).
Proof.
  split; [lia |]. split; [reflexivity |]. split; [reflexivity |].
  apply (make_api_request_other_exception "esearch.fcgi" [] 3
           (world_of broken)); [lia | reflexivity | reflexivity].
Defined.

(** ** Transport: the status check *)

Lemma raise_for_status_error r :
  error_status r ->
  exists e, raise_for_status r = Raise e /\ class_of e = HTTPError.
Proof.
  unfold error_status, raise_for_status. intros [Hlo Hhi].
  destruct (Z.leb_spec 400 (status_code r)); [| lia].
  destruct (Z.ltb_spec (status_code r) 500); cbn [andb].
  - eexists. split; reflexivity.
  - destruct (Z.leb_spec 500 (status_code r)); [| lia].
    destruct (Z.ltb_spec (status_code r) 600); [| lia].
    eexists. split; reflexivity.
Qed.

Lemma raise_for_status_accepts r :
  ~ error_status r -> raise_for_status r = Ok tt.
Proof.
  unfold error_status, raise_for_status. intros Hno.
  destruct (Z.leb_spec 400 (status_code r));
    destruct (Z.ltb_spec (status_code r) 500); cbn [andb]; try lia;
    destruct (Z.leb_spec 500 (status_code r));
    destruct (Z.ltb_spec (status_code r) 600); cbn [andb]; try lia;
    reflexivity.
Qed.

Lemma attempt_fails_on_error_status endpoint params w i r :
  transport w (List.length (calls w) + i)%nat (request_of endpoint params)
  = Ok r ->
  error_status r ->
  exists e, attempt_outcome endpoint params w i = Raise e
            /\ class_of e = HTTPError.
Proof.
  intros Hget Hstatus. unfold attempt_outcome, checked. rewrite Hget.
  destruct (raise_for_status_error r Hstatus) as (e & He & Hclass).
  exists e. cbn [rbind]. now rewrite He.
Qed.

(** X3.  A service that keeps answering with a 4xx or 5xx status is
    retried like a failing one: after three requests the [HTTPError] of the
    status check is raised. *)
Theorem make_api_request_error_status endpoint params w :
  (forall i, (i < 3)%nat ->
     exists r,
       transport w (List.length (calls w) + i)%nat (request_of endpoint params)
       = Ok r /\ error_status r) ->
  exists e w',
    make_api_request endpoint params Config.RETRY_ATTEMPTS w = (Raise e, w')
    /\ class_of e = HTTPError
    /\ calls w' = (calls w ++ repeat (request_of endpoint params) 3)%list.
Proof.
  intros Hstatus.
  assert (Hfail : forall i, (i < Z.to_nat Config.RETRY_ATTEMPTS)%nat ->
                            attempt_fails endpoint params w i).
  { intros i Hi. destruct (Hstatus i Hi) as (r & Hget & Hr).
    destruct (attempt_fails_on_error_status _ _ _ _ _ Hget Hr)
      as (e & He & Hclass).
    exists e. split; [exact He |].
    unfold is_request_exception. now rewrite Hclass. }
  destruct (make_api_request_exhausted endpoint params Config.RETRY_ATTEMPTS w)
    as (e & He & Hrun); [reflexivity | exact Hfail |].
  exists e. eexists. split; [exact Hrun |]. split.
  - destruct (Hstatus 2%nat) as (r & Hget & Hr); [lia |].
    destruct (attempt_fails_on_error_status _ _ _ _ _ Hget Hr)
      as (e' & He' & Hclass).
    change (Z.to_nat Config.RETRY_ATTEMPTS - 1)%nat with 2%nat in He.
    congruence.
  - apply calls_issued_retried.
Qed.

Lemma make_api_request_error_status_witness :
  (forall i, (i < 3)%nat ->
     exists r,
       transport (world_of overloaded)
                 (List.length (calls (world_of overloaded)) + i)%nat
                 (request_of "efetch.fcgi" [])
       = Ok r /\ error_status r)
  /\ exists e w',
      make_api_request "efetch.fcgi" [] Config.RETRY_ATTEMPTS
                       (world_of overloaded) = (Raise e, w')
      /\ class_of e = HTTPError
      /\ calls w' = (calls (world_of overloaded)
                     ++ repeat (request_of "efetch.fcgi" []) 3)%list.
Proof.
  assert (H : forall i, (i < 3)%nat ->
     exists r,
       transport (world_of overloaded)
                 (List.length (calls (world_of overloaded)) + i)%nat
                 (request_of "efetch.fcgi" [])
       = Ok r /\ error_status r).
  { intros i _. exists unavailable. split; [reflexivity |].
    unfold error_status. simpl. lia. }
  split; [exact H |].
  exact (make_api_request_error_status "efetch.fcgi" [] (world_of overloaded) H).
Defined.

(** X4.  A response whose status is outside 400..599 is accepted as it
    is, 1xx and 3xx included: it is returned after a single request and
    without pause. *)
Theorem make_api_request_accepts_status endpoint params retries w r :
  0 < retries ->
  transport w (List.length (calls w)) (request_of endpoint params) = Ok r ->
  ~ error_status r ->
  make_api_request endpoint params retries w
  = (Ok (Some r), issued (request_of endpoint params) w).
Proof.
  intros Hpos Hget Hstatus.
  apply (make_api_request_succeeds endpoint params retries w 0 r);
    [lia | intros i Hi; lia |].
  unfold attempt_outcome, checked. rewrite Nat.add_0_r, Hget.
  cbn [rbind]. now rewrite (raise_for_status_accepts r Hstatus).
Qed.

Lemma make_api_request_accepts_status_witness :
  let w := world_of (fun _ _ => Ok not_modified) in
  0 < 3
  /\ transport w (List.length (calls w)) (request_of "esearch.fcgi" [])
     = Ok not_modified
  /\ ~ error_status not_modified
  /\ make_api_request "esearch.fcgi" [] 3 w
     = (Ok (Some not_modified), issued (request_of "esearch.fcgi" []) w).
Proof.
  intros w.
  assert (Hs : ~ error_status not_modified)
    by (unfold error_status; simpl; lia).
  split; [lia |]. split; [reflexivity |]. split; [exact Hs |].
  apply (make_api_request_accepts_status "esearch.fcgi" [] 3 w not_modified);
    [lia | reflexivity | exact Hs].
Defined.

(** ** Search *)

Section SearchFacts.
Context `{Interpreter}.

(** After the request the search only decodes: the world is the one
    [make_api_request] leaves, and its exception is passed on. *)
Lemma search_call_world search_query max_count w :
  snd (search_call search_query max_count w)
  = snd (make_api_request "esearch.fcgi"
           (search_params search_query max_count) Config.RETRY_ATTEMPTS w).
Proof.
  unfold search_call, bind, response_json, lift, ret.
  fold (search_params search_query max_count).
  destruct (make_api_request "esearch.fcgi"
              (search_params search_query max_count) Config.RETRY_ATTEMPTS w)
    as [[[r |] | e] w1]; cbn [snd]; [| reflexivity | reflexivity].
  destruct (json r) as [data | e]; [| reflexivity].
  destruct (py_get data "esearchresult" (VDict [])) as [er | e];
    [| reflexivity].
  destruct (py_get er "idlist" (VList [])) as [ids | e]; [| reflexivity].
  destruct (py_get er "count" (VInt 0)) as [c | e]; [| reflexivity].
  destruct (py_int c) as [total | e]; [| reflexivity].
  destruct (py_len ids); reflexivity.
Qed.

Lemma retrieve_article_ids_world search_query max_count w :
  search_query <> "" ->
  snd (retrieve_article_ids search_query max_count w)
  = snd (make_api_request "esearch.fcgi"
           (search_params search_query max_count) Config.RETRY_ATTEMPTS w).
Proof.
  intros Hq. rewrite retrieve_article_ids_unfold by exact Hq.
  rewrite <- search_call_world.
  destruct (search_call search_query max_count w) as [[found | e] w1];
    reflexivity.
Qed.

Lemma retrieve_article_ids_total search_query max_count w :
  exists found w',
    retrieve_article_ids search_query max_count w = (Ok found, w').
Proof.
  destruct (String.eqb_spec search_query "") as [-> | Hq].
  - now exists (VList [], 0), w.
  - rewrite retrieve_article_ids_unfold by exact Hq.
    destruct (search_call search_query max_count w) as [[found | e] w'];
      eauto.
Qed.

(** X5.  A search with a query costs between one and three requests, each
    of them the GET of [esearch.fcgi] with the query as [term] and the
    limit as [retmax]; nothing else in the world changes but the pauses. *)
Theorem retrieve_article_ids_requests search_query max_count w :
  search_query <> "" ->
  exists n,
    (1 <= n <= 3)%nat
    /\ calls (snd (retrieve_article_ids search_query max_count w))
       = (calls w ++ repeat (search_request search_query max_count) n)%list
    /\ slept (snd (retrieve_article_ids search_query max_count w))
       = slept w + (Z.of_nat n - 1) * Config.RETRY_DELAY.
Proof.
  intros Hq. rewrite retrieve_article_ids_world by exact Hq.
  destruct (make_api_request_world "esearch.fcgi"
              (search_params search_query max_count) Config.RETRY_ATTEMPTS w)
    as (k & res & Hrun & Hk & _); [reflexivity |].
  exists (S k). rewrite Hrun. cbn [snd].
  split; [unfold Config.RETRY_ATTEMPTS in Hk; lia |].
  split; [apply calls_issued_retried |].
  cbn [slept issued]. rewrite slept_retried. lia.
Qed.

(** X6.  When the first answer is a JSON object, the search returns the
    [idlist] of its [esearchresult] (an empty list when either key is
    missing) together with [int()] of its [count] (0 when missing), after a
    single request. *)
Theorem retrieve_article_ids_decodes
    search_query max_count w r data er total n :
  search_query <> "" ->
  attempt_outcome "esearch.fcgi" (search_params search_query max_count) w 0
  = Ok r ->
  json r = Ok (VDict data) ->
  get_or data "esearchresult" (VDict []) = VDict er ->
  py_int (get_or er "count" (VInt 0)) = Ok total ->
  py_len (get_or er "idlist" (VList [])) = Ok n ->
  retrieve_article_ids search_query max_count w
  = (Ok (get_or er "idlist" (VList []), total),
     issued (search_request search_query max_count) w).
Proof.
  intros Hq Hget Hjson Her Hcount Hlen.
  rewrite retrieve_article_ids_unfold by exact Hq.
  unfold search_call, bind, response_json, lift, ret.
  fold (search_params search_query max_count).
  rewrite (make_api_request_succeeds "esearch.fcgi"
             (search_params search_query max_count)
             Config.RETRY_ATTEMPTS w 0 r);
    [| reflexivity | intros i Hi; lia | exact Hget].
  rewrite Hjson. cbn [py_get]. rewrite Her. cbn [py_get].
  now rewrite Hcount, Hlen.
Qed.

End SearchFacts.

Lemma retrieve_article_ids_requests_witness :
  "(asthma[Title/Abstract])" <> ""
  /\ exists n,
      (1 <= n <= 3)%nat
      /\ calls (snd (@retrieve_article_ids sample_interpreter
                       "(asthma[Title/Abstract])" 15 (world_of down)))
         = (calls (world_of down)
            ++ repeat (search_request "(asthma[Title/Abstract])" 15) n)%list
      /\ slept (snd (@retrieve_article_ids sample_interpreter
                       "(asthma[Title/Abstract])" 15 (world_of down)))
         = slept (world_of down) + (Z.of_nat n - 1) * Config.RETRY_DELAY.
Proof.
  assert (Hq : "(asthma[Title/Abstract])" <> "") by discriminate.
  split; [exact Hq |].
  exact (@retrieve_article_ids_requests sample_interpreter
           "(asthma[Title/Abstract])" 15 (world_of down) Hq).
Defined.

Lemma retrieve_article_ids_decodes_witness :
  let q := "Smith J[Author]" in
  let w := world_of (once (ok_response (Ok count_only) not_xml)) in
  let er := [("count", VStr "57"); ("idlist", VList [])] in
  q <> ""
  /\ attempt_outcome "esearch.fcgi" (search_params q 0) w 0
     = Ok (ok_response (Ok count_only) not_xml)
  /\ get_or [("esearchresult", VDict er)] "esearchresult" (VDict []) = VDict er
  /\ @py_int sample_interpreter (get_or er "count" (VInt 0)) = Ok 57
  /\ py_len (get_or er "idlist" (VList [])) = Ok 0%nat
  /\ @retrieve_article_ids sample_interpreter q 0 w
     = (Ok (VList [], 57), issued (search_request q 0) w).
Proof.
  intros q w er.
  assert (Hq : q <> "") by discriminate.
  split; [exact Hq |]. split; [reflexivity |]. split; [reflexivity |].
  split; [reflexivity |]. split; [reflexivity |].
  exact (@retrieve_article_ids_decodes sample_interpreter q 0 w
           (ok_response (Ok count_only) not_xml)
           [("esearchresult", VDict er)] er 57 0%nat
           Hq eq_refl eq_refl eq_refl eq_refl eq_refl).
Defined.

(** ** Fetch *)

Lemma join_items_strings sep l : forall i,
  join_items sep i (map VStr l) = Ok l.
Proof.
  induction l as [| s l IH]; intros i; cbn [map join_items]; [reflexivity |].
  now rewrite IH.
Qed.

Lemma truthy_strings l : l <> [] -> truthy (VList (map VStr l)) = true.
Proof. destruct l; [congruence | reflexivity]. Qed.

(** The fetch for a non-empty list of identifiers, in terms of the
    transport. *)
Lemma fetch_article_metadata_run l w :
  l <> [] ->
  fetch_article_metadata (VList (map VStr l)) w
  = match make_api_request "efetch.fcgi"
            (fetch_params (String.concat "," l)) Config.RETRY_ATTEMPTS w with
    | (Ok (Some r), w1) =>
        match fromstring_content r with
        | Ok root => (Ok (Some root), w1)
        | Raise _ => (Ok None, w1)
        end
    | (_, w1) => (Ok None, w1)
    end.
Proof.
  intros Hl. unfold fetch_article_metadata.
  rewrite (truthy_strings l Hl). cbn [negb].
  unfold try_except, fetch_call, bind, response_fromstring, lift, ret.
  cbn [str_join]. rewrite join_items_strings. cbn [rbind].
  fold (fetch_params (String.concat "," l)).
  destruct (make_api_request "efetch.fcgi"
              (fetch_params (String.concat "," l)) Config.RETRY_ATTEMPTS w)
    as [[[r |] | e] w1]; try reflexivity.
  destruct (fromstring_content r); reflexivity.
Qed.

Lemma fetch_article_metadata_total article_ids w :
  exists root w', fetch_article_metadata article_ids w = (Ok root, w').
Proof.
  unfold fetch_article_metadata, try_except.
  destruct (truthy article_ids); cbn [negb]; [| now exists None, w].
  destruct (fetch_call article_ids w) as [[root | e] w'];
    do 2 eexists; reflexivity.
Qed.

(** X7.  [fetch_article_metadata] never raises, whatever the identifiers
    and the service: it returns a document or [None], and a document only
    when a request was issued. *)
Theorem fetch_article_metadata_never_raises article_ids w :
  exists root w',
    fetch_article_metadata article_ids w = (Ok root, w')
    /\ (calls w' = calls w -> root = None).
Proof.
  destruct (truthy article_ids) eqn:Hids.
  - destruct (str_join "," article_ids) as [ids | e] eqn:Hjoin.
    + unfold fetch_article_metadata, try_except, fetch_call, bind, lift, ret.
      rewrite Hids, Hjoin. cbn [negb].
      destruct (make_api_request_world "efetch.fcgi" (fetch_params ids)
                  Config.RETRY_ATTEMPTS w) as (k & res & Hrun & _ & _);
        [reflexivity |].
      fold (fetch_params ids). rewrite Hrun.
      assert (Hcalls : calls (issued (request_of "efetch.fcgi" (fetch_params ids))
                                (retried "efetch.fcgi" (fetch_params ids) k w))
                       <> calls w).
      { rewrite calls_issued_retried. intros Heq.
        apply (f_equal (@List.length Request)) in Heq.
        rewrite length_app, repeat_length in Heq. lia. }
      destruct res as [[r |] | e]; unfold response_fromstring, lift;
        try (do 2 eexists; split; [reflexivity | intros Hc; now apply Hcalls in Hc]).
      destruct (fromstring_content r);
        do 2 eexists; split; try reflexivity; intros Hc; now apply Hcalls in Hc.
    + exists None, w. split; [| reflexivity].
      unfold fetch_article_metadata, try_except, fetch_call, bind, lift.
      now rewrite Hids, Hjoin.
  - exists None, w. split; [| reflexivity].
    unfold fetch_article_metadata. now rewrite Hids.
Qed.

(** X8.  Without identifiers, or with identifiers that cannot be joined
    into one string, the fetch returns [None] and issues no request. *)
Theorem fetch_article_metadata_without_request article_ids w :
  truthy article_ids = false \/ (exists e, str_join "," article_ids = Raise e) ->
  fetch_article_metadata article_ids w = (Ok None, w).
Proof.
  unfold fetch_article_metadata.
  destruct (truthy article_ids); cbn [negb]; intros [Hempty | (e & Hjoin)];
    try reflexivity; try discriminate.
  unfold try_except, fetch_call, bind, lift. now rewrite Hjoin.
Qed.

Lemma fetch_article_metadata_without_request_witness :
  (truthy (VList []) = false
   \/ exists e, str_join "," (VList []) = Raise e)
  /\ fetch_article_metadata (VList []) (world_of down)
     = (Ok None, world_of down)
  /\ (truthy (VList [VStr "31452104"; VInt 7]) = false
      \/ exists e, str_join "," (VList [VStr "31452104"; VInt 7]) = Raise e)
  /\ fetch_article_metadata (VList [VStr "31452104"; VInt 7]) (world_of down)
     = (Ok None, world_of down).
Proof.
  assert (H1 : truthy (VList []) = false
               \/ exists e, str_join "," (VList []) = Raise e)
    by (left; reflexivity).
  assert (H2 : truthy (VList [VStr "31452104"; VInt 7]) = false
               \/ exists e,
                   str_join "," (VList [VStr "31452104"; VInt 7]) = Raise e)
    by (right; eexists; reflexivity).
  split; [exact H1 |].
  split; [exact (fetch_article_metadata_without_request _ (world_of down) H1) |].
  split; [exact H2 |].
  exact (fetch_article_metadata_without_request _ (world_of down) H2).
Defined.

(** X9.  For a non-empty list of identifiers the fetch sends them in one
    request, joined by commas; when the first answer parses, its root is
    returned. *)
Theorem fetch_article_metadata_parses l w r root :
  l <> [] ->
  attempt_outcome "efetch.fcgi" (fetch_params (String.concat "," l)) w 0
  = Ok r ->
  fromstring_content r = Ok root ->
  fetch_article_metadata (VList (map VStr l)) w
  = (Ok (Some root), issued (fetch_request l) w).
Proof.
  intros Hl Hget Hparse.
  rewrite (fetch_article_metadata_run l w Hl).
  rewrite (make_api_request_succeeds "efetch.fcgi"
             (fetch_params (String.concat "," l))
             Config.RETRY_ATTEMPTS w 0 r);
    [| reflexivity | intros i Hi; lia | exact Hget].
  now rewrite Hparse.
Qed.

Lemma fetch_article_metadata_parses_witness :
  let l := ["31452104"; "30049270"] in
  let r := ok_response not_json (Ok plain_document) in
  let w := world_of (fun _ _ => Ok r) in
  l <> []
  /\ attempt_outcome "efetch.fcgi" (fetch_params (String.concat "," l)) w 0
     = Ok r
  /\ fromstring_content r = Ok plain_document
  /\ fetch_article_metadata (VList (map VStr l)) w
     = (Ok (Some plain_document), issued (fetch_request l) w)
  /\ dict_get (req_params (fetch_request l)) "id"
     = Some (VStr "31452104,30049270").
Proof.
  intros l r w.
  assert (Hl : l <> []) by discriminate.
  split; [exact Hl |]. split; [reflexivity |]. split; [reflexivity |].
  split; [| reflexivity].
  exact (fetch_article_metadata_parses l w r plain_document
           Hl eq_refl eq_refl).
Defined.

(** X10.  An answer that does not parse makes the fetch return [None]; the
    request is not repeated. *)
Theorem fetch_article_metadata_parse_failure l w r e :
  l <> [] ->
  attempt_outcome "efetch.fcgi" (fetch_params (String.concat "," l)) w 0
  = Ok r ->
  fromstring_content r = Raise e ->
  fetch_article_metadata (VList (map VStr l)) w
  = (Ok None, issued (fetch_request l) w).
Proof.
  intros Hl Hget Hparse.
  rewrite (fetch_article_metadata_run l w Hl).
  rewrite (make_api_request_succeeds "efetch.fcgi"
             (fetch_params (String.concat "," l))
             Config.RETRY_ATTEMPTS w 0 r);
    [| reflexivity | intros i Hi; lia | exact Hget].
  now rewrite Hparse.
Qed.

Lemma fetch_article_metadata_parse_failure_witness :
  let l := ["31452104"] in
  let r := ok_response not_json not_xml in
  let w := world_of (fun _ _ => Ok r) in
  l <> []
  /\ attempt_outcome "efetch.fcgi" (fetch_params (String.concat "," l)) w 0
     = Ok r
  /\ fromstring_content r = Raise (Exn OtherError "syntax error")
  /\ fetch_article_metadata (VList (map VStr l)) w
     = (Ok None, issued (fetch_request l) w).
Proof.
  intros l r w.
  assert (Hl : l <> []) by discriminate.
  split; [exact Hl |]. split; [reflexivity |]. split; [reflexivity |].
  exact (fetch_article_metadata_parse_failure l w r _ Hl eq_refl eq_refl).
Defined.

(** X29.  When the service fails three times the fetch gives up: it
    returns [None] after exactly these three requests. *)
Lemma fetch_article_metadata_down l w :
  l <> [] ->
  (forall i, (i < 3)%nat ->
     attempt_fails "efetch.fcgi" (fetch_params (String.concat "," l)) w i) ->
  exists w',
    fetch_article_metadata (VList (map VStr l)) w = (Ok None, w')
    /\ calls w' = (calls w ++ repeat (fetch_request l) 3)%list.
Proof.
  intros Hl Hfail.
  rewrite (fetch_article_metadata_run l w Hl).
  destruct (make_api_request_exhausted "efetch.fcgi"
              (fetch_params (String.concat "," l)) Config.RETRY_ATTEMPTS w)
    as (e & _ & Hrun); [reflexivity | exact Hfail |].
  rewrite Hrun. eexists. split; [reflexivity |].
  apply calls_issued_retried.
Qed.

(** ** Parser *)

Section ParserInvariants.
Import ET ArticleParser.

Lemma str_truthy_nonempty s : str_truthy s = true <-> s <> "".
Proof.
  unfold str_truthy. destruct (String.eqb_spec s ""); cbn [negb];
    split; congruence.
Qed.

Lemma article_data_scalars article key s :
  dict_get (article_data article) key = Some (FStr s) -> s <> "".
Proof.
  cbn [article_data dict_get]. intros Hget.
  repeat match type of Hget with
         | context [if ?b then _ else _] => destruct b
         end;
    try discriminate; injection Hget as <-;
    try (apply str_truthy_nonempty, extract_text_truthy; reflexivity).
  discriminate.
Qed.

Lemma article_data_journal article j key s :
  dict_get (article_data article) "journal" = Some (FDict j) ->
  dict_get j key = Some s -> s <> "".
Proof.
  intros Hj. injection Hj as <-. cbn [dict_get]. intros Hget.
  repeat match type of Hget with
         | context [if ?b then _ else _] => destruct b
         end;
    try discriminate; injection Hget as <-;
    apply str_truthy_nonempty, extract_text_truthy; reflexivity.
Qed.

(** X11.  No string of a parsed record is empty: the identifier, the url,
    the title, the year, the DOI, the abstract and the four journal facts
    each hold a text of the document or the placeholder. *)
Theorem process_articles_no_empty_string root record :
  In record (process_articles root) ->
  (forall key s, dict_get record key = Some (FStr s) -> s <> "")
  /\ (forall j key s,
        dict_get record "journal" = Some (FDict j) ->
        dict_get j key = Some s -> s <> "").
Proof.
  destruct root as [document |]; simpl; [| contradiction].
  intros Hin. apply in_map_iff in Hin. destruct Hin as (article & <- & _).
  split.
  - apply article_data_scalars.
  - apply article_data_journal.
Qed.

Lemma process_articles_no_empty_string_witness :
  let record := article_data plain_article in
  In record (process_articles (Some plain_document))
  /\ (forall key s, dict_get record key = Some (FStr s) -> s <> "")
  /\ (forall j key s,
        dict_get record "journal" = Some (FDict j) ->
        dict_get j key = Some s -> s <> "").
Proof.
  intros record.
  assert (Hin : In record (process_articles (Some plain_document)))
    by (left; reflexivity).
  split; [exact Hin |].
  exact (process_articles_no_empty_string (Some plain_document) record Hin).
Defined.


Lemma length_flat_map_le {A B} (f : A -> list B) l :
  (forall x, List.length (f x) <= 1)%nat ->
  (List.length (flat_map f l) <= List.length l)%nat.
Proof.
  intros Hf. induction l as [| x l IH]; simpl; [lia |].
  rewrite length_app. specialize (Hf x). lia.
Qed.


(** X13.  The keywords of a record are exactly the non-empty texts of the
    keyword nodes of the article. *)
Theorem extract_keywords_texts article keyword :
  In keyword (extract_keywords article)
  <-> keyword <> ""
      /\ exists node,
          In node (findall article p_Keyword)
          /\ text_of node = Some keyword.
Proof.
  unfold extract_keywords. rewrite in_flat_map. split.
  - intros (node & Hnode & Hin).
    destruct (text_of node) as [t |] eqn:Ht; [| contradiction].
    destruct (str_truthy t) eqn:Htruthy; [| contradiction].
    destruct Hin as [<- | []].
    split; [now apply str_truthy_nonempty | now exists node].
  - intros (Hne & node & Hnode & Ht). exists node. split; [exact Hnode |].
    rewrite Ht. apply str_truthy_nonempty in Hne. rewrite Hne. now left.
Qed.

End ParserInvariants.


Lemma extract_keywords_texts_witness :
  ArticleParser.extract_keywords keyworded_article = ["asthma"; "adult"]
  /\ "adult" <> ""
  /\ exists node,
      In node (ET.findall keyworded_article ArticleParser.p_Keyword)
      /\ ET.text_of node = Some "adult".
Proof.
  split; [reflexivity |].
  apply (proj1 (extract_keywords_texts keyworded_article "adult")).
  right. left. reflexivity.
Defined.

(** ** Query construction *)

Lemma concat_nonempty sep x l : x <> "" -> String.concat sep (x :: l) <> "".
Proof.
  intros Hx. destruct x as [| c x]; [congruence |].
  destruct l; simpl; discriminate.
Qed.

(** X14.  [combine_clauses] gives the empty string, which the handler
    takes as "no query", exactly when every clause is empty. *)
Theorem combine_clauses_empty clauses :
  QueryBuilder.combine_clauses clauses = ""
  <-> Forall (fun clause => clause = "") clauses.
Proof.
  unfold QueryBuilder.combine_clauses.
  induction clauses as [| c clauses IH]; cbn [filter].
  - split; [constructor | reflexivity].
  - destruct (str_truthy c) eqn:Hc.
    + split.
      * intros Hcat. exfalso. revert Hcat.
        apply concat_nonempty. now apply str_truthy_nonempty.
      * intros Hall. inversion Hall as [| ? ? Hc' _]; subst.
        discriminate.
    + assert (c = "").
      { destruct (String.eqb_spec c "") as [-> | Hne]; [reflexivity |].
        apply str_truthy_nonempty in Hne. congruence. }
      subst c. rewrite IH. split.
      * now constructor.
      * intros Hall. now inversion Hall.
Qed.

(** The query of [find_articles] is the author clause and the keyword
    clause, in this order, joined by " AND "; a list that is empty
    contributes nothing, not even the connective. *)
Lemma query_of_clauses topics researchers :
  query_of topics researchers
  = match researchers, topics with
    | [], [] => ""
    | _ :: _, [] => QueryBuilder.create_author_clause researchers
    | [], _ :: _ => QueryBuilder.create_keyword_clause topics
    | _ :: _, _ :: _ =>
        QueryBuilder.create_author_clause researchers ++ " AND "
        ++ QueryBuilder.create_keyword_clause topics
    end.
Proof.
  destruct researchers, topics; reflexivity.
Qed.

Lemma query_of_nonempty topics researchers :
  researchers <> [] \/ topics <> [] -> query_of topics researchers <> "".
Proof.
  intros Hsome. rewrite query_of_clauses.
  destruct researchers, topics; try discriminate.
  destruct Hsome; congruence.
Qed.

(** ** The [find_articles] handler *)

Section FindArticles.
Context `{Interpreter}.
Variables (topics researchers : list string) (result_limit : Z).

(** The handler once the query is known not to be empty. *)
Lemma find_articles_run w :
  query_of topics researchers <> "" ->
  find_articles topics researchers result_limit w
  = match retrieve_article_ids (query_of topics researchers) result_limit
            (ticked w) with
    | (Ok (article_ids, total_count), w1) =>
        if truthy article_ids then
          match fetch_article_metadata article_ids w1 with
          | (Ok root, w2) =>
              let articles := ArticleParser.process_articles root in
              let retrieved := Z.of_nat (List.length articles) in
              (Ok [("status", VStr "success");
                   ("message",
                    VStr ("Found " ++ decimal total_count
                          ++ " articles, returning " ++ decimal retrieved));
                   ("total_available", VInt total_count);
                   ("retrieved", VInt retrieved);
                   ("performance",
                    VDict [("elapsed_seconds",
                            VFloat (round2 (clock w2 (ticks w2)
                                            - clock w (ticks w))%Q))]);
                   ("articles", VList (map box_article articles))],
               ticked w2)
          | (Raise e, w2) =>
              (Ok [("status", VStr "error"); ("message", VStr (str_of e));
                   ("articles", VList [])], w2)
          end
        else (Ok no_articles_found, w1)
    | (Raise e, w1) =>
        (Ok [("status", VStr "error"); ("message", VStr (str_of e));
             ("articles", VList [])], w1)
    end.
Proof.
  intros Hquery. unfold find_articles, try_except, bind.
  cbn [time_time]. fold (query_of topics researchers).
  apply str_truthy_nonempty in Hquery. rewrite Hquery. cbn [negb].
  change {| transport := transport w; calls := calls w; slept := slept w;
            clock := clock w; ticks := S (ticks w) |} with (ticked w).
  destruct (retrieve_article_ids (query_of topics researchers) result_limit
              (ticked w)) as [[[article_ids total_count] | e] w1];
    [| reflexivity].
  destruct (truthy article_ids); cbn [negb]; [| reflexivity].
  destruct (fetch_article_metadata article_ids w1) as [[root | e] w2];
    reflexivity.
Qed.

(** X15.  With at least one topic or researcher, [find_articles] answers
    with status "success" whatever the service does: a search or a fetch
    that fails is reported as an empty result, never as an error. *)
Theorem find_articles_always_success w :
  researchers <> [] \/ topics <> [] ->
  exists env w',
    find_articles topics researchers result_limit w = (Ok env, w')
    /\ dict_get env "status" = Some (VStr "success").
Proof.
  intros Hsome. rewrite find_articles_run by now apply query_of_nonempty.
  destruct (retrieve_article_ids_total (query_of topics researchers)
              result_limit (ticked w)) as ([article_ids total] & w1 & ->).
  destruct (truthy article_ids).
  - destruct (fetch_article_metadata_total article_ids w1)
      as (root & w2 & ->).
    do 2 eexists. split; reflexivity.
  - do 2 eexists. split; reflexivity.
Qed.

(** X16.  When the search returns no identifier, [find_articles] answers
    "No articles found" with [total_available] 0, whatever total the search
    reported, and does not fetch. *)
Theorem find_articles_no_identifier w article_ids total w1 :
  researchers <> [] \/ topics <> [] ->
  retrieve_article_ids (query_of topics researchers) result_limit (ticked w)
  = (Ok (article_ids, total), w1) ->
  truthy article_ids = false ->
  find_articles topics researchers result_limit w = (Ok no_articles_found, w1).
Proof.
  intros Hsome Hsearch Hids.
  rewrite find_articles_run by now apply query_of_nonempty.
  now rewrite Hsearch, Hids.
Qed.

(** X17.  When the search service fails three times, [find_articles]
    answers "No articles found" after exactly these three requests. *)
Theorem find_articles_service_down w :
  researchers <> [] \/ topics <> [] ->
  (forall i, (i < 3)%nat ->
     attempt_fails "esearch.fcgi"
       (search_params (query_of topics researchers) result_limit)
       (ticked w) i) ->
  exists w',
    find_articles topics researchers result_limit w = (Ok no_articles_found, w')
    /\ calls w'
       = (calls w
          ++ repeat (search_request (query_of topics researchers) result_limit)
                    3)%list.
Proof.
  intros Hsome Hfail.
  pose proof (query_of_nonempty topics researchers Hsome) as Hquery.
  rewrite find_articles_run by exact Hquery.
  rewrite retrieve_article_ids_unfold by exact Hquery.
  unfold search_call, bind.
  fold (search_params (query_of topics researchers) result_limit).
  destruct (make_api_request_exhausted "esearch.fcgi"
              (search_params (query_of topics researchers) result_limit)
              Config.RETRY_ATTEMPTS (ticked w))
    as (e & _ & Hrun); [reflexivity | exact Hfail |].
  rewrite Hrun. cbn [truthy].
  eexists. split; [reflexivity |].
  apply (calls_issued_retried "esearch.fcgi"
           (search_params (query_of topics researchers) result_limit)
           2 (ticked w)).
Qed.

(** X18.  When identifiers are found and the document is fetched,
    [find_articles] returns one record per article node of the document,
    in document order; [retrieved] is their number and [total_available]
    the total reported by the search. *)
Theorem find_articles_found w article_ids total w1 document w2 :
  researchers <> [] \/ topics <> [] ->
  retrieve_article_ids (query_of topics researchers) result_limit (ticked w)
  = (Ok (article_ids, total), w1) ->
  truthy article_ids = true ->
  fetch_article_metadata article_ids w1 = (Ok (Some document), w2) ->
  let nodes := ET.findall document ArticleParser.p_PubmedArticle in
  exists elapsed,
    find_articles topics researchers result_limit w
    = (Ok [("status", VStr "success");
           ("message",
            VStr ("Found " ++ decimal total ++ " articles, returning "
                  ++ decimal (Z.of_nat (List.length nodes))));
           ("total_available", VInt total);
           ("retrieved", VInt (Z.of_nat (List.length nodes)));
           ("performance", VDict [("elapsed_seconds", VFloat elapsed)]);
           ("articles",
            VList (map box_article (map ArticleParser.article_data nodes)))],
       ticked w2).
Proof.
  intros Hsome Hsearch Hids Hfetch nodes.
  rewrite find_articles_run by now apply query_of_nonempty.
  rewrite Hsearch, Hids, Hfetch.
  cbn [ArticleParser.process_articles]. fold nodes.
  rewrite length_map. eexists. reflexivity.
Qed.

End FindArticles.

Lemma find_articles_always_success_witness :
  (([] : list string) <> [] \/ ["asthma"] <> [])
  /\ exists env w',
      @find_articles sample_interpreter ["asthma"] [] 15 (world_of down)
      = (Ok env, w')
      /\ dict_get env "status" = Some (VStr "success").
Proof.
  assert (Hsome : ([] : list string) <> [] \/ ["asthma"] <> [])
    by (right; discriminate).
  split; [exact Hsome |].
  exact (@find_articles_always_success sample_interpreter ["asthma"] [] 15
           (world_of down) Hsome).
Defined.

Lemma find_articles_no_identifier_witness :
  let w := world_of (once (ok_response (Ok count_only) not_xml)) in
  let w1 := snd (@retrieve_article_ids sample_interpreter
                   (query_of [] ["Smith J"]) 0 (ticked w)) in
  (["Smith J"] <> [] \/ ([] : list string) <> [])
  /\ @retrieve_article_ids sample_interpreter (query_of [] ["Smith J"]) 0
       (ticked w) = (Ok (VList [], 57), w1)
  /\ truthy (VList []) = false
  /\ @find_articles sample_interpreter [] ["Smith J"] 0 w
     = (Ok no_articles_found, w1)
  /\ dict_get no_articles_found "total_available" = Some (VInt 0).
Proof.
  intros w w1.
  assert (Hsome : ["Smith J"] <> [] \/ ([] : list string) <> [])
    by (left; discriminate).
  assert (Hsearch : @retrieve_article_ids sample_interpreter
                      (query_of [] ["Smith J"]) 0 (ticked w)
                    = (Ok (VList [], 57), w1))
    by (vm_compute; reflexivity).
  split; [exact Hsome |]. split; [exact Hsearch |]. split; [reflexivity |].
  split; [| reflexivity].
  exact (@find_articles_no_identifier sample_interpreter [] ["Smith J"] 0 w
           (VList []) 57 w1 Hsome Hsearch eq_refl).
Defined.

Lemma find_articles_service_down_witness :
  let w := world_of down in
  (([] : list string) <> [] \/ ["asthma"] <> [])
  /\ (forall i, (i < 3)%nat ->
        attempt_fails "esearch.fcgi"
          (search_params (query_of ["asthma"] []) 15) (ticked w) i)
  /\ exists w',
      @find_articles sample_interpreter ["asthma"] [] 15 w
      = (Ok no_articles_found, w')
      /\ calls w'
         = (calls w
            ++ repeat (search_request (query_of ["asthma"] []) 15) 3)%list.
Proof.
  intros w.
  assert (Hsome : ([] : list string) <> [] \/ ["asthma"] <> [])
    by (right; discriminate).
  assert (Hfail : forall i, (i < 3)%nat ->
            attempt_fails "esearch.fcgi"
              (search_params (query_of ["asthma"] []) 15) (ticked w) i).
  { intros i _. exists timed_out. split; reflexivity. }
  split; [exact Hsome |]. split; [exact Hfail |].
  exact (@find_articles_service_down sample_interpreter ["asthma"] [] 15 w
           Hsome Hfail).
Defined.

Lemma find_articles_found_witness :
  let w := world_of (library eight_articles) in
  let ids := VList [VStr "31452104"; VStr "30049270"] in
  let w1 := snd (@retrieve_article_ids sample_interpreter
                   (query_of ["asthma"] []) 2 (ticked w)) in
  let w2 := snd (fetch_article_metadata ids w1) in
  (([] : list string) <> [] \/ ["asthma"] <> [])
  /\ @retrieve_article_ids sample_interpreter (query_of ["asthma"] []) 2
       (ticked w) = (Ok (ids, 2), w1)
  /\ truthy ids = true
  /\ fetch_article_metadata ids w1 = (Ok (Some eight_articles), w2)
  /\ exists env,
      @find_articles sample_interpreter ["asthma"] [] 2 w = (Ok env, ticked w2)
      /\ dict_get env "retrieved" = Some (VInt 8)
      /\ dict_get env "total_available" = Some (VInt 2).
Proof.
  intros w ids w1 w2.
  assert (Hsome : ([] : list string) <> [] \/ ["asthma"] <> [])
    by (right; discriminate).
  assert (Hsearch : @retrieve_article_ids sample_interpreter
                      (query_of ["asthma"] []) 2 (ticked w)
                    = (Ok (ids, 2), w1))
    by (vm_compute; reflexivity).
  assert (Hfetch : fetch_article_metadata ids w1 = (Ok (Some eight_articles), w2))
    by (vm_compute; reflexivity).
  split; [exact Hsome |]. split; [exact Hsearch |]. split; [reflexivity |].
  split; [exact Hfetch |].
  destruct (@find_articles_found sample_interpreter ["asthma"] [] 2 w ids 2 w1
              eight_articles w2 Hsome Hsearch eq_refl Hfetch)
    as (elapsed & Hrun).
  eexists. split; [exact Hrun |]. split; reflexivity.
Defined.

(** ** Blank arguments *)

Lemma lstrip_blank l : forallb is_space l = true -> lstrip l = [].
Proof.
  induction l as [| c l IH]; cbn [forallb lstrip]; [reflexivity |].
  destruct (is_space c); [exact IH | discriminate].
Qed.

Lemma lstrip_nil l : lstrip l = [] -> forallb is_space l = true.
Proof.
  induction l as [| c l IH]; cbn [forallb lstrip]; [reflexivity |].
  destruct (is_space c); [exact IH | discriminate].
Qed.


Lemma string_of_list_ascii_nil l : string_of_list_ascii l = "" -> l = [].
Proof. destruct l; [reflexivity | discriminate]. Qed.

(** [characters] only cuts: no byte is lost and no character is empty. *)
Lemma concat_characters l : List.concat (characters l) = l.
Proof.
  induction l as [| b l IH]; [reflexivity |].
  cbn [characters].
  destruct (characters l) as [| [| c following] rest];
    cbn [List.concat app] in *; try (now rewrite IH).
  destruct (is_continuation c); cbn [List.concat app]; now rewrite <- IH.
Qed.

Lemma characters_nonempty l : Forall (fun c => c <> []) (characters l).
Proof.
  induction l as [| b l IH]; [constructor |].
  cbn [characters].
  destruct (characters l) as [| [| c following] rest].
  - repeat constructor. discriminate.
  - constructor; [discriminate | exact IH].
  - inversion IH as [| ? ? _ Hrest]; subst.
    destruct (is_continuation c); repeat constructor;
      try discriminate; exact Hrest.
Qed.

Lemma lstrip_In c l : In c (lstrip l) -> In c l.
Proof.
  induction l as [| c1 l IH]; cbn [lstrip]; [tauto |].
  destruct (is_space c1); [| tauto].
  intros Hin. right. now apply IH.
Qed.

Lemma concat_no_empty {A} (l : list (list A)) :
  Forall (fun c => c <> []) l -> List.concat l = [] -> l = [].
Proof.
  destruct l as [| [| x c] l]; [reflexivity | |].
  - intros Hl. inversion Hl as [| ? ? Hc _]. now contradiction Hc.
  - discriminate.
Qed.

(** [strip] leaves nothing exactly of the strings that are blank. *)
Lemma strip_empty s : strip s = "" <-> blank s.
Proof.
  unfold strip, blank.
  set (cs := characters (list_ascii_of_string s)).
  split.
  - intros Hstrip. apply string_of_list_ascii_nil in Hstrip.
    apply concat_no_empty in Hstrip.
    2: { apply Forall_forall. intros c Hc.
         apply in_rev, lstrip_In, in_rev, lstrip_In in Hc.
         pose proof (characters_nonempty (list_ascii_of_string s)) as Hne.
         rewrite Forall_forall in Hne. now apply Hne. }
    apply (f_equal (@rev (list ascii))) in Hstrip.
    rewrite rev_involutive in Hstrip.
    cbn [rev] in Hstrip. apply lstrip_nil in Hstrip.
    apply lstrip_nil.
    destruct (lstrip cs) as [| c l] eqn:Hl; [reflexivity |].
    exfalso.
    assert (Hc : is_space c = false).
    { destruct (is_space c) eqn:Hc; [| reflexivity].
      revert Hl. generalize cs. intros l1.
      induction l1 as [| c1 l1 IH]; cbn [lstrip]; [discriminate |].
      destruct (is_space c1) eqn:Hc1; [exact IH |].
      intros [= -> _]. congruence. }
    rewrite forallb_forall in Hstrip.
    specialize (Hstrip c). rewrite Hstrip in Hc; [discriminate |].
    apply -> in_rev. now left.
  - intros Hblank. now rewrite (lstrip_blank _ Hblank).
Qed.

(** Whitespace of any width is removed at both ends and nowhere else, and
    a zero-width space (U+200B) is no whitespace. *)
Lemma strip_padding :
  strip (padding ++ "Smith  J" ++ no_break_space) = "Smith  J"
  /\ ~ blank (String (ascii_of_nat 226)
                (String (ascii_of_nat 128) (String (ascii_of_nat 139) ""))).
Proof. split; [reflexivity | discriminate]. Qed.

(** The test [not s or not s.strip()] of the two handlers. *)
Lemma rejected_iff_blank s :
  negb (str_truthy s) || negb (str_truthy (strip s)) = true <-> blank s.
Proof.
  rewrite <- strip_empty. unfold str_truthy. rewrite !negb_involutive.
  destruct (String.eqb_spec s "") as [-> | Hs]; cbn [orb].
  - split; reflexivity.
  - destruct (String.eqb_spec (strip s) ""); split; congruence.
Qed.

Lemma accepted_iff_not_blank s :
  negb (str_truthy s) || negb (str_truthy (strip s)) = false <-> ~ blank s.
Proof.
  rewrite <- rejected_iff_blank.
  destruct (negb (str_truthy s) || negb (str_truthy (strip s)));
    split; congruence.
Qed.

(** ** The [get_publication_details] handler *)

Section PublicationDetails.
Context `{Interpreter}.
Import ArticleParser.

(** X19.  An identifier that is empty or made of whitespace only (a
    no-break space for one) is rejected with "Article ID is required", and
    no request is issued. *)
Theorem get_publication_details_blank article_id w :
  blank article_id ->
  get_publication_details article_id w
  = (Ok [("status", VStr "error"); ("message", VStr "Article ID is required")],
     w).
Proof.
  intros Hblank. apply rejected_iff_blank in Hblank.
  unfold get_publication_details, try_except. now rewrite Hblank.
Qed.

(** X20.  For an identifier that is not blank the answer follows the
    fetch of that single identifier: no document gives "Failed to retrieve
    data", a document without article node "No article found", and
    otherwise the record of the first article node is returned with its
    citation added under the key "citation". *)
Theorem get_publication_details_outcomes article_id w root w1 :
  ~ blank article_id ->
  fetch_article_metadata (VList [VStr article_id]) w = (Ok root, w1) ->
  get_publication_details article_id w
  = (Ok match root with
        | None =>
            [("status", VStr "error");
             ("message",
              VStr ("Failed to retrieve data for article ID: " ++ article_id))]
        | Some document =>
            match ET.findall document p_PubmedArticle with
            | [] =>
                [("status", VStr "error");
                 ("message",
                  VStr ("No article found with ID: " ++ article_id))]
            | node :: _ =>
                [("status", VStr "success");
                 ("publication",
                  box_article
                    (article_data node
                     ++ [("citation",
                          FStr (generate_citation (article_data node)))])%list)]
            end
        end, w1).
Proof.
  intros Hid Hfetch. apply accepted_iff_not_blank in Hid.
  unfold get_publication_details, try_except, bind. rewrite Hid, Hfetch.
  destruct root as [document |]; [| reflexivity].
  cbn [process_articles].
  destruct (ET.findall document p_PubmedArticle) as [| node nodes];
    reflexivity.
Qed.

(** X21.  [get_publication_details] never raises.  Its envelope has status
    "error", or status "success" and a publication that carries a
    citation. *)
Theorem get_publication_details_never_raises article_id w :
  exists env w',
    get_publication_details article_id w = (Ok env, w')
    /\ (dict_get env "status" = Some (VStr "error")
        \/ dict_get env "status" = Some (VStr "success")
           /\ exists publication citation,
               dict_get env "publication" = Some (VDict publication)
               /\ dict_get publication "citation" = Some (VStr citation)).
Proof.
  unfold get_publication_details, try_except, bind.
  destruct (negb (str_truthy article_id)
            || negb (str_truthy (strip article_id))).
  - do 2 eexists. split; [reflexivity | now left].
  - destruct (fetch_article_metadata_total (VList [VStr article_id]) w)
      as (root & w1 & ->).
    destruct root as [document |];
      [| do 2 eexists; split; [reflexivity | now left]].
    cbn [process_articles].
    destruct (ET.findall document p_PubmedArticle) as [| node nodes];
      [do 2 eexists; split; [reflexivity | now left] |].
    do 2 eexists. split; [reflexivity |].
    right. split; [reflexivity |].
    do 2 eexists. split; reflexivity.
Qed.

End PublicationDetails.

Lemma get_publication_details_blank_witness :
  no_break_space <> ""
  /\ blank no_break_space
  /\ @get_publication_details sample_interpreter no_break_space
       (world_of down)
     = (Ok [("status", VStr "error");
            ("message", VStr "Article ID is required")], world_of down).
Proof.
  assert (Hblank : blank no_break_space) by reflexivity.
  split; [discriminate |]. split; [exact Hblank |].
  exact (@get_publication_details_blank sample_interpreter no_break_space
           (world_of down) Hblank).
Defined.

Lemma get_publication_details_outcomes_witness :
  let w := world_of (fun _ _ => Ok (ok_response not_json (Ok plain_document))) in
  let w1 := snd (fetch_article_metadata (VList [VStr "31452104"]) w) in
  ~ blank "31452104"
  /\ fetch_article_metadata (VList [VStr "31452104"]) w
     = (Ok (Some plain_document), w1)
  /\ @get_publication_details sample_interpreter "31452104" w
     = (Ok [("status", VStr "success");
            ("publication",
             box_article
               (ArticleParser.article_data plain_article
                ++ [("citation",
                     FStr (@generate_citation sample_interpreter
                             (ArticleParser.article_data plain_article)))])%list)],
        w1).
Proof.
  intros w w1.
  assert (Hid : ~ blank "31452104") by discriminate.
  assert (Hfetch : fetch_article_metadata (VList [VStr "31452104"]) w
                   = (Ok (Some plain_document), w1))
    by (vm_compute; reflexivity).
  split; [exact Hid |]. split; [exact Hfetch |].
  exact (@get_publication_details_outcomes sample_interpreter "31452104" w
           (Some plain_document) w1 Hid Hfetch).
Defined.

(** ** The [get_article_statistics] handler *)

Section Statistics.
Context `{Interpreter}.
Import ArticleParser.

(** The loop over a parsed sample never raises: the journal of a parsed
    record is a dictionary and its year a string. *)
Lemma tally_parsed nodes : forall acc,
  exists journals years,
    tally (map article_data nodes) acc = Ok (journals, years).
Proof.
  induction nodes as [| node nodes IH]; intros [journals years].
  - now exists journals, years.
  - cbn [map tally]. unfold tally_article.
    cbn [article_data get_or dict_get String.eqb Ascii.eqb Bool.eqb
         field_get rbind].
    destruct (str_truthy (extract_text node p_Journal_Title NA)
              && negb (extract_text node p_Journal_Title NA =? "N/A")%string);
      destruct (str_truthy (extract_text node p_Year NA)
                && negb (extract_text node p_Year NA =? "N/A")%string);
      cbn [rbind]; apply IH.
Qed.

Lemma tally_sample root :
  tally (process_articles root) ([], [])
  = Ok (counts (journal_names (process_articles root)),
        counts (observed_years (process_articles root))).
Proof.
  destruct root as [document |]; [| reflexivity].
  cbn [process_articles].
  destruct (tally_parsed (ET.findall document p_PubmedArticle) ([], []))
    as (journals & years & Htally).
  rewrite Htally. apply tally_counts in Htally. destruct Htally as [-> ->].
  reflexivity.
Qed.

(** X22.  A researcher name that is empty or made of whitespace only
    (ASCII or not) is rejected with "Researcher name is required", and no
    request is issued. *)
Theorem get_article_statistics_blank researcher w :
  blank researcher ->
  get_article_statistics researcher w
  = (Ok [("status", VStr "error");
         ("message", VStr "Researcher name is required")], w).
Proof.
  intros Hblank. apply rejected_iff_blank in Hblank.
  unfold get_article_statistics, try_except. now rewrite Hblank.
Qed.

(** X23.  When the search for the researcher returns no identifier, the
    answer is a success with [total_publications] 0, whatever total the
    search reported, and nothing is fetched. *)
Theorem get_article_statistics_no_identifier
    researcher w article_ids total w1 :
  ~ blank researcher ->
  retrieve_article_ids (researcher ++ "[Author]") 100 w
  = (Ok (article_ids, total), w1) ->
  truthy article_ids = false ->
  get_article_statistics researcher w = (Ok (no_publications researcher), w1).
Proof.
  intros Hname Hsearch Hids. apply accepted_iff_not_blank in Hname.
  unfold get_article_statistics, try_except, bind.
  now rewrite Hname, Hsearch, Hids.
Qed.

(** X24.  When the search returns a list of identifiers, only the first
    ten are fetched.  The answer reports the total of the search, the
    number of records parsed from the fetched document, the ranked
    journals and years of these records and the titles of the first five
    of them. *)
Theorem get_article_statistics_sample researcher w l total w1 root w2 :
  ~ blank researcher ->
  retrieve_article_ids (researcher ++ "[Author]") 100 w
  = (Ok (VList l, total), w1) ->
  l <> [] ->
  fetch_article_metadata (VList (firstn 10 l)) w1 = (Ok root, w2) ->
  let sample := process_articles root in
  get_article_statistics researcher w
  = (Ok [("status", VStr "success");
         ("researcher", VStr researcher);
         ("total_publications", VInt total);
         ("recent_sample_size", VInt (Z.of_nat (List.length sample)));
         ("top_journals",
          VList (map (counted "name")
                     (top_journals (counts (journal_names sample)))));
         ("publication_years",
          VList (map (counted "year")
                     (publication_years (counts (observed_years sample)))));
         ("sample_titles",
          VList (map (fun a => match dict_get a "title" with
                               | Some t => box t
                               | None => VNone
                               end)
                     (firstn 5 sample)))], w2).
Proof.
  intros Hname Hsearch Hl Hfetch sample.
  apply accepted_iff_not_blank in Hname.
  unfold get_article_statistics, try_except, bind, lift.
  rewrite Hname, Hsearch.
  destruct l as [| id l]; [congruence |].
  cbn [truthy slice_to]. rewrite Hfetch.
  fold sample. unfold sample. now rewrite tally_sample.
Qed.

(** X25.  [get_article_statistics] never raises: it returns an envelope
    whose status is "success" or "error". *)
Theorem get_article_statistics_never_raises researcher w :
  exists env w',
    get_article_statistics researcher w = (Ok env, w')
    /\ (dict_get env "status" = Some (VStr "success")
        \/ dict_get env "status" = Some (VStr "error")).
Proof.
  unfold get_article_statistics, try_except, bind, lift.
  destruct (negb (str_truthy researcher)
            || negb (str_truthy (strip researcher))).
  { do 2 eexists. split; [reflexivity | now right]. }
  destruct (retrieve_article_ids_total (researcher ++ "[Author]") 100 w)
    as ([article_ids total] & w1 & ->).
  destruct (truthy article_ids).
  2: { do 2 eexists. split; [reflexivity | now left]. }
  destruct (slice_to 10 article_ids) as [recent | e].
  2: { do 2 eexists. split; [reflexivity | now right]. }
  destruct (fetch_article_metadata_total recent w1) as (root & w2 & ->).
  rewrite tally_sample.
  do 2 eexists. split; [reflexivity | now left].
Qed.

End Statistics.

Lemma get_article_statistics_blank_witness :
  String.length padding = 7%nat
  /\ blank padding
  /\ @get_article_statistics sample_interpreter padding (world_of down)
     = (Ok [("status", VStr "error");
            ("message", VStr "Researcher name is required")], world_of down).
Proof.
  assert (Hblank : blank padding) by reflexivity.
  split; [reflexivity |]. split; [exact Hblank |].
  exact (@get_article_statistics_blank sample_interpreter padding
           (world_of down) Hblank).
Defined.

Lemma get_article_statistics_no_identifier_witness :
  let w := world_of (once (ok_response (Ok count_only) not_xml)) in
  let w1 := snd (@retrieve_article_ids sample_interpreter "Smith J[Author]"
                   100 w) in
  ~ blank "Smith J"
  /\ @retrieve_article_ids sample_interpreter ("Smith J" ++ "[Author]") 100 w
     = (Ok (VList [], 57), w1)
  /\ truthy (VList []) = false
  /\ @get_article_statistics sample_interpreter "Smith J" w
     = (Ok (no_publications "Smith J"), w1).
Proof.
  intros w w1.
  assert (Hname : ~ blank "Smith J") by discriminate.
  assert (Hsearch : @retrieve_article_ids sample_interpreter
                      ("Smith J" ++ "[Author]") 100 w
                    = (Ok (VList [], 57), w1))
    by (vm_compute; reflexivity).
  split; [exact Hname |]. split; [exact Hsearch |]. split; [reflexivity |].
  exact (@get_article_statistics_no_identifier sample_interpreter "Smith J" w
           (VList []) 57 w1 Hname Hsearch eq_refl).
Defined.

Lemma get_article_statistics_sample_witness :
  let w := world_of (archive three_articles) in
  let l := map VStr ["1"; "2"; "3"; "4"; "5"; "6"; "7"; "8"; "9"; "10"; "11";
                     "12"] in
  let w1 := snd (@retrieve_article_ids sample_interpreter "Smith J[Author]"
                   100 w) in
  let w2 := snd (fetch_article_metadata (VList (firstn 10 l)) w1) in
  ~ blank "Smith J"
  /\ @retrieve_article_ids sample_interpreter ("Smith J" ++ "[Author]") 100 w
     = (Ok (VList l, 340), w1)
  /\ l <> []
  /\ fetch_article_metadata (VList (firstn 10 l)) w1
     = (Ok (Some three_articles), w2)
  /\ (exists env,
        @get_article_statistics sample_interpreter "Smith J" w = (Ok env, w2)
        /\ dict_get env "total_publications" = Some (VInt 340)
        /\ dict_get env "recent_sample_size" = Some (VInt 3))
  /\ calls w2
     = [search_request "Smith J[Author]" 100;
        fetch_request ["1"; "2"; "3"; "4"; "5"; "6"; "7"; "8"; "9"; "10"]].
Proof.
  intros w l w1 w2.
  assert (Hname : ~ blank "Smith J") by discriminate.
  assert (Hsearch : @retrieve_article_ids sample_interpreter
                      ("Smith J" ++ "[Author]") 100 w
                    = (Ok (VList l, 340), w1))
    by (vm_compute; reflexivity).
  assert (Hl : l <> []) by discriminate.
  assert (Hfetch : fetch_article_metadata (VList (firstn 10 l)) w1
                   = (Ok (Some three_articles), w2))
    by (vm_compute; reflexivity).
  split; [exact Hname |]. split; [exact Hsearch |]. split; [exact Hl |].
  split; [exact Hfetch |]. split; [| vm_compute; reflexivity].
  eexists. split.
  - exact (@get_article_statistics_sample sample_interpreter "Smith J" w l
             340 w1 (Some three_articles) w2 Hname Hsearch Hl Hfetch).
  - split; reflexivity.
Defined.

(** ** Counts *)

Lemma total_count_set d k v :
  total_count (dict_set d k v) = total_count d - get_or d k 0 + v.
Proof.
  unfold get_or.
  induction d as [| [k' v'] d IH]; cbn [dict_set dict_get total_count fold_right].
  - cbn [snd]. lia.
  - destruct (String.eqb_spec k' k) as [-> | Hne];
      cbn [total_count fold_right snd].
    + lia.
    + fold (total_count (dict_set d k v)). fold (total_count d).
      rewrite IH. lia.
Qed.

Lemma total_count_counts names :
  total_count (counts names) = Z.of_nat (List.length names).
Proof.
  induction names as [| x names IH] using rev_ind; [reflexivity |].
  rewrite counts_snoc. unfold count_one.
  rewrite total_count_set, IH, length_app. cbn [List.length]. lia.
Qed.

Lemma total_count_perm l l' :
  Permutation l l' -> total_count l = total_count l'.
Proof.
  induction 1 as [| x l l' _ IH | x y l | l l' l'' _ IH1 _ IH2];
    cbn [total_count fold_right] in *; try lia.
  - fold (total_count l). fold (total_count l'). lia.
Qed.

Lemma total_count_nonneg l :
  Forall (fun item => 0 <= snd item) l -> 0 <= total_count l.
Proof.
  induction 1 as [| x l Hx _ IH]; cbn [total_count fold_right]; [lia |].
  fold (total_count l). cbn beta in Hx. lia.
Qed.

Lemma total_count_firstn n l :
  Forall (fun item => 0 <= snd item) l ->
  total_count (firstn n l) <= total_count l.
Proof.
  revert l. induction n as [| n IH]; intros l Hall.
  - cbn [firstn]. now apply total_count_nonneg.
  - destruct Hall as [| x l Hx Hall]; [cbn; lia |].
    cbn [firstn total_count fold_right].
    fold (total_count (firstn n l)). fold (total_count l).
    specialize (IH l Hall). lia.
Qed.

Lemma counts_positive names :
  Forall (fun item => 1 <= snd item) (counts names).
Proof.
  apply Forall_forall. intros [n c] Hin. apply counts_In in Hin.
  destruct Hin as [Hin ->]. unfold occurrences. cbn [snd].
  apply (count_occ_In string_dec) in Hin. lia.
Qed.

Lemma length_journal_names sample :
  (List.length (journal_names sample) <= List.length sample)%nat.
Proof.
  apply length_flat_map_le. intros a.
  destruct (get_or a "journal" (FDict [])) as [s | d | l | l];
    cbn [List.length]; try lia.
  destruct (dict_get d "name") as [n |]; [| cbn; lia].
  destruct (counted_key n); cbn; lia.
Qed.

Lemma length_observed_years sample :
  (List.length (observed_years sample) <= List.length sample)%nat.
Proof.
  apply length_flat_map_le. intros a.
  destruct (dict_get a "publication_date") as [[y | d | l | l] |];
    cbn [List.length]; try lia.
  destruct (counted_key y); cbn; lia.
Qed.

(** X26.  In a statistics result every listed journal and every listed
    year has a count of at least 1; the counts of the years, and those of
    the top journals, add up to at most the number of sampled records. *)
Theorem get_article_statistics_counts `{Interpreter}
    researcher w env w' tops listed size :
  get_article_statistics researcher w = (Ok env, w') ->
  dict_get env "top_journals" = Some tops ->
  dict_get env "publication_years" = Some listed ->
  dict_get env "recent_sample_size" = Some size ->
  exists journals years n,
    tops = VList (map (counted "name") journals)
    /\ listed = VList (map (counted "year") years)
    /\ size = VInt n
    /\ Forall (fun item => 1 <= snd item) journals
    /\ Forall (fun item => 1 <= snd item) years
    /\ total_count journals <= n
    /\ total_count years <= n.
Proof.
  unfold get_article_statistics, try_except, bind, lift.
  destruct (negb (str_truthy researcher)
            || negb (str_truthy (strip researcher)));
    [intros [= <- <-]; discriminate |].
  destruct (retrieve_article_ids_total (researcher ++ "[Author]") 100 w)
    as ([article_ids total] & w1 & ->).
  destruct (truthy article_ids); [| intros [= <- <-]; discriminate].
  destruct (slice_to 10 article_ids) as [recent | e];
    [| intros [= <- <-]; discriminate].
  destruct (fetch_article_metadata_total recent w1) as (root & w2 & ->).
  rewrite tally_sample.
  set (sample := ArticleParser.process_articles root).
  intros [= <- <-] [= <-] [= <-] [= <-].
  do 3 eexists. split; [reflexivity |]. split; [reflexivity |].
  split; [reflexivity |].
  pose proof (counts_positive (journal_names sample)) as Hj.
  pose proof (counts_positive (observed_years sample)) as Hy.
  pose proof (sorted_reverse_perm snd Z.ltb (counts (journal_names sample)))
    as Hpj.
  pose proof (sorted_reverse_perm fst String.ltb
                (counts (observed_years sample))) as Hpy.
  assert (Hsj : Forall (fun item => 1 <= snd item)
                       (sorted_reverse snd Z.ltb (counts (journal_names sample)))).
  { rewrite Forall_forall in *. intros x Hx. apply Hj.
    now apply (Permutation_in x Hpj). }
  split; [| split; [| split]].
  - unfold top_journals. rewrite Forall_forall in *. intros x Hx.
    apply Hsj. revert Hx. generalize 5%nat.
    generalize (sorted_reverse snd Z.ltb (counts (journal_names sample))).
    intros l n. revert l. induction n as [| n IH]; intros [| y l];
      cbn [firstn In]; try tauto.
    intros [-> | Hin]; [now left | right; now apply IH].
  - unfold publication_years. rewrite Forall_forall in *. intros x Hx.
    apply Hy. now apply (Permutation_in x Hpy).
  - unfold top_journals.
    etransitivity; [apply total_count_firstn |].
    + eapply Forall_impl; [| exact Hsj]. cbn beta. intros. lia.
    + rewrite (total_count_perm _ _ Hpj), total_count_counts.
      pose proof (length_journal_names sample). lia.
  - unfold publication_years.
    rewrite (total_count_perm _ _ Hpy), total_count_counts.
    pose proof (length_observed_years sample). lia.
Qed.

Lemma get_article_statistics_counts_witness :
  let run := @get_article_statistics sample_interpreter "Smith J"
               (world_of (library eight_articles)) in
  let tops :=
    VList (map (counted "name")
               [("Lancet", 2); ("Thorax", 2); ("Chest", 1); ("Gut", 1);
                ("BMJ", 1)]) in
  let listed :=
    VList (map (counted "year") [("2023", 2); ("2021", 4); ("2019", 2)]) in
  exists env,
    run = (Ok env, snd run)
    /\ dict_get env "top_journals" = Some tops
    /\ dict_get env "publication_years" = Some listed
    /\ dict_get env "recent_sample_size" = Some (VInt 8)
    /\ exists journals years n,
        tops = VList (map (counted "name") journals)
        /\ listed = VList (map (counted "year") years)
        /\ VInt 8 = VInt n
        /\ Forall (fun item => 1 <= snd item) journals
        /\ Forall (fun item => 1 <= snd item) years
        /\ total_count journals <= n
        /\ total_count years <= n.
Proof.
  intros run tops listed.
  assert (Hrun : exists env,
             run = (Ok env, snd run)
             /\ dict_get env "top_journals" = Some tops
             /\ dict_get env "publication_years" = Some listed
             /\ dict_get env "recent_sample_size" = Some (VInt 8))
    by (eexists; split; [vm_compute; reflexivity |];
        split; [reflexivity |]; split; reflexivity).
  destruct Hrun as (env & Hrun & Htops & Hlisted & Hsize).
  exists env. split; [exact Hrun |]. split; [exact Htops |].
  split; [exact Hlisted |]. split; [exact Hsize |].
  exact (@get_article_statistics_counts sample_interpreter "Smith J"
           (world_of (library eight_articles)) env (snd run) tops listed
           (VInt 8) Hrun Htops Hlisted Hsize).
Defined.

(** ** Citations of arbitrary records *)

Section CitationLayout.
Context `{Interpreter}.

Lemma string_append_nil (s : string) : s ++ "" = s.
Proof. induction s as [| c s IH]; simpl; [reflexivity | now rewrite IH]. Qed.

(** X27.  A record whose journal entry is not a dictionary, or whose
    author entry is one, does not make [generate_citation] raise: the
    result is the text "Citation generation failed". *)
Theorem generate_citation_malformed article :
  (forall j, get_or article "journal" (FDict []) <> FDict j)
  \/ (exists d, get_or article "authors" (FDicts []) = FDict d) ->
  generate_citation article = "Citation generation failed".
Proof.
  unfold generate_citation, citation_text, citation_authors.
  intros [Hjournal | (d & Hauthors)].
  - destruct (first_authors (get_or article "authors" (FDicts [])))
      as [author_list | e]; cbn [rbind]; [| reflexivity].
    destruct (get_or article "journal" (FDict [])) as [s | j | l | l];
      try reflexivity.
    now contradiction (Hjournal j).
  - now rewrite Hauthors.
Qed.

(** X28.  For a record with a list of authors, a journal dictionary and a
    DOI that is a string or missing, the citation is the author tokens
    joined by ", ", then title, journal name, year and volume (a missing
    key counts as empty), then "(issue)", ":pages" and, after the full
    stop, " doi: ..." for each of these values that is there and not
    empty. *)
Theorem generate_citation_layout article authors j doi :
  get_or article "authors" (FDicts []) = FDicts authors ->
  get_or article "journal" (FDict []) = FDict j ->
  dict_get article "doi" = option_map FStr doi ->
  generate_citation article
  = String.concat ", "
      (map author_token (firstn 6 authors)
       ++ (if (6 <? List.length authors)%nat then ["et al"] else []))%list
    ++ ". " ++ fmt (get_or article "title" (FStr "")) ++ ". "
    ++ get_or j "name" "" ++ ". "
    ++ fmt (get_or article "publication_date" (FStr "")) ++ ";"
    ++ get_or j "volume" ""
    ++ segment "(" (dict_get j "issue") ")"
    ++ segment ":" (dict_get j "pages") ""
    ++ "." ++ segment " doi: " doi "".
Proof.
  intros Hauthors Hjournal Hdoi.
  unfold generate_citation, citation_text, citation_authors.
  rewrite Hauthors, Hjournal, Hdoi.
  cbn [first_authors rbind field_get field_get_or field_len].
  destruct (6 <? List.length authors)%nat; rewrite ?app_nil_r;
    unfold get_or, segment;
    destruct (dict_get j "issue") as [issue |];
    try destruct (str_truthy issue);
    destruct (dict_get j "pages") as [pages |];
    try destruct (str_truthy pages);
    destruct doi as [doi |]; cbn [option_map field_truthy fmt box py_str];
    try destruct (str_truthy doi);
    rewrite ?string_append_assoc, ?string_append_nil;
    cbn [String.append]; rewrite ?string_append_nil; reflexivity.
Qed.

End CitationLayout.

Lemma generate_citation_malformed_witness :
  ((forall j,
       get_or [("title", FStr "Asthma in adults"); ("journal", FStr "Thorax")]
              "journal" (FDict []) <> FDict j)
   \/ (exists d,
         get_or [("title", FStr "Asthma in adults"); ("journal", FStr "Thorax")]
                "authors" (FDicts []) = FDict d))
  /\ @generate_citation sample_interpreter
       [("title", FStr "Asthma in adults"); ("journal", FStr "Thorax")]
     = "Citation generation failed".
Proof.
  assert (Hbad : (forall j,
       get_or [("title", FStr "Asthma in adults"); ("journal", FStr "Thorax")]
              "journal" (FDict []) <> FDict j)
   \/ (exists d,
         get_or [("title", FStr "Asthma in adults"); ("journal", FStr "Thorax")]
                "authors" (FDicts []) = FDict d))
    by (left; discriminate).
  split; [exact Hbad |].
  exact (@generate_citation_malformed sample_interpreter _ Hbad).
Defined.

Lemma generate_citation_layout_witness :
  let authors :=
    map (fun n => [("lastname", n); ("initials", "A")])
        ["Ames"; "Berg"; "Cole"; "Diaz"; "Eze"; "Fox"; "Gray"; "Hill"] in
  let j := [("name", "Thorax"); ("volume", "12")] in
  get_or eight_authors "authors" (FDicts []) = FDicts authors
  /\ get_or eight_authors "journal" (FDict []) = FDict j
  /\ dict_get eight_authors "doi" = option_map FStr None
  /\ @generate_citation sample_interpreter eight_authors
     = "Ames A, Berg A, Cole A, Diaz A, Eze A, Fox A, et al. Asthma in adults. Thorax. 2019;12.".
Proof.
  intros authors j.
  split; [reflexivity |]. split; [reflexivity |]. split; [reflexivity |].
  rewrite (@generate_citation_layout sample_interpreter eight_authors authors j
             None eq_refl eq_refl eq_refl).
  reflexivity.
Defined.

Lemma fetch_article_metadata_down_witness :
  let l := ["31452104"; "30049270"] in
  l <> []
  /\ (forall i, (i < 3)%nat ->
        attempt_fails "efetch.fcgi" (fetch_params (String.concat "," l))
                      (world_of down) i)
  /\ exists w',
      fetch_article_metadata (VList (map VStr l)) (world_of down)
      = (Ok None, w')
      /\ calls w' = (calls (world_of down) ++ repeat (fetch_request l) 3)%list.
Proof.
  intros l.
  assert (Hl : l <> []) by discriminate.
  assert (Hfail : forall i, (i < 3)%nat ->
            attempt_fails "efetch.fcgi" (fetch_params (String.concat "," l))
                          (world_of down) i).
  { intros i _. exists timed_out. split; reflexivity. }
  split; [exact Hl |]. split; [exact Hfail |].
  exact (fetch_article_metadata_down l (world_of down) Hl Hfail).
Defined.
